(** * GlassWindow backend: the HTTP handlers of [main.py]

    A shallow embedding of the request handlers of the FastAPI application
    ([read_root], [hello], [test_database], [market_overview], [explain],
    [list_reports]) and of the routes that call them, together with the
    parts of the Python runtime they rely on: text as sequences of Unicode
    code points with [str.strip] and [str.lower], insertion-ordered
    dictionaries, exceptions with [try]/[except], the encoding of a
    response as UTF-8, the environment and the wall clock. *)

From Stdlib Require Import NArith ZArith List String Ascii Bool Lia PrimFloat.
Import ListNotations.

Set Warnings "-inexact-float,-register-all".

(** * Unicode character data

    The tables CPython consults for [str.strip] and [str.lower] (Unicode
    Character Database 14.0.0, the version bundled with CPython 3.11),
    written as inclusive code point ranges. *)

Module Unicode.

(** Simple lowercase mappings as [(first, last, step, target)]: every
    [step]-th code point [c] of [first..last] maps to [target + (c - first)]. *)
Definition lowercase_ranges : list (N * N * N * N) :=
  [
  (65, 90, 1, 97); (192, 214, 1, 224); (216, 222, 1, 248); (256, 302, 2, 257);
  (306, 310, 2, 307); (313, 327, 2, 314); (330, 374, 2, 331); (376, 376, 1, 255);
  (377, 381, 2, 378); (385, 385, 1, 595); (386, 388, 2, 387); (390, 390, 1, 596);
  (391, 391, 1, 392); (393, 394, 1, 598); (395, 395, 1, 396); (398, 398, 1, 477);
  (399, 399, 1, 601); (400, 400, 1, 603); (401, 401, 1, 402); (403, 403, 1, 608);
  (404, 404, 1, 611); (406, 406, 1, 617); (407, 407, 1, 616); (408, 408, 1, 409);
  (412, 412, 1, 623); (413, 413, 1, 626); (415, 415, 1, 629); (416, 420, 2, 417);
  (422, 422, 1, 640); (423, 423, 1, 424); (425, 425, 1, 643); (428, 428, 1, 429);
  (430, 430, 1, 648); (431, 431, 1, 432); (433, 434, 1, 650); (435, 437, 2, 436);
  (439, 439, 1, 658); (440, 440, 1, 441); (444, 444, 1, 445); (452, 452, 1, 454);
  (453, 453, 1, 454); (455, 455, 1, 457); (456, 456, 1, 457); (458, 458, 1, 460);
  (459, 475, 2, 460); (478, 494, 2, 479); (497, 497, 1, 499); (498, 500, 2, 499);
  (502, 502, 1, 405); (503, 503, 1, 447); (504, 542, 2, 505); (544, 544, 1, 414);
  (546, 562, 2, 547); (570, 570, 1, 11365); (571, 571, 1, 572); (573, 573, 1, 410);
  (574, 574, 1, 11366); (577, 577, 1, 578); (579, 579, 1, 384); (580, 580, 1, 649);
  (581, 581, 1, 652); (582, 590, 2, 583); (880, 882, 2, 881); (886, 886, 1, 887);
  (895, 895, 1, 1011); (902, 902, 1, 940); (904, 906, 1, 941); (908, 908, 1, 972);
  (910, 911, 1, 973); (913, 929, 1, 945); (931, 939, 1, 963); (975, 975, 1, 983);
  (984, 1006, 2, 985); (1012, 1012, 1, 952); (1015, 1015, 1, 1016); (1017, 1017, 1, 1010);
  (1018, 1018, 1, 1019); (1021, 1023, 1, 891); (1024, 1039, 1, 1104); (1040, 1071, 1, 1072);
  (1120, 1152, 2, 1121); (1162, 1214, 2, 1163); (1216, 1216, 1, 1231); (1217, 1229, 2, 1218);
  (1232, 1326, 2, 1233); (1329, 1366, 1, 1377); (4256, 4293, 1, 11520); (4295, 4295, 1, 11559);
  (4301, 4301, 1, 11565); (5024, 5103, 1, 43888); (5104, 5109, 1, 5112); (7312, 7354, 1, 4304);
  (7357, 7359, 1, 4349); (7680, 7828, 2, 7681); (7838, 7838, 1, 223); (7840, 7934, 2, 7841);
  (7944, 7951, 1, 7936); (7960, 7965, 1, 7952); (7976, 7983, 1, 7968); (7992, 7999, 1, 7984);
  (8008, 8013, 1, 8000); (8025, 8031, 2, 8017); (8040, 8047, 1, 8032); (8072, 8079, 1, 8064);
  (8088, 8095, 1, 8080); (8104, 8111, 1, 8096); (8120, 8121, 1, 8112); (8122, 8123, 1, 8048);
  (8124, 8124, 1, 8115); (8136, 8139, 1, 8050); (8140, 8140, 1, 8131); (8152, 8153, 1, 8144);
  (8154, 8155, 1, 8054); (8168, 8169, 1, 8160); (8170, 8171, 1, 8058); (8172, 8172, 1, 8165);
  (8184, 8185, 1, 8056); (8186, 8187, 1, 8060); (8188, 8188, 1, 8179); (8486, 8486, 1, 969);
  (8490, 8490, 1, 107); (8491, 8491, 1, 229); (8498, 8498, 1, 8526); (8544, 8559, 1, 8560);
  (8579, 8579, 1, 8580); (9398, 9423, 1, 9424); (11264, 11311, 1, 11312); (11360, 11360, 1, 11361);
  (11362, 11362, 1, 619); (11363, 11363, 1, 7549); (11364, 11364, 1, 637); (11367, 11371, 2, 11368);
  (11373, 11373, 1, 593); (11374, 11374, 1, 625); (11375, 11375, 1, 592); (11376, 11376, 1, 594);
  (11378, 11378, 1, 11379); (11381, 11381, 1, 11382); (11390, 11391, 1, 575); (11392, 11490, 2, 11393);
  (11499, 11501, 2, 11500); (11506, 11506, 1, 11507); (42560, 42604, 2, 42561); (42624, 42650, 2, 42625);
  (42786, 42798, 2, 42787); (42802, 42862, 2, 42803); (42873, 42875, 2, 42874); (42877, 42877, 1, 7545);
  (42878, 42886, 2, 42879); (42891, 42891, 1, 42892); (42893, 42893, 1, 613); (42896, 42898, 2, 42897);
  (42902, 42920, 2, 42903); (42922, 42922, 1, 614); (42923, 42923, 1, 604); (42924, 42924, 1, 609);
  (42925, 42925, 1, 620); (42926, 42926, 1, 618); (42928, 42928, 1, 670); (42929, 42929, 1, 647);
  (42930, 42930, 1, 669); (42931, 42931, 1, 43859); (42932, 42946, 2, 42933); (42948, 42948, 1, 42900);
  (42949, 42949, 1, 642); (42950, 42950, 1, 7566); (42951, 42953, 2, 42952); (42960, 42960, 1, 42961);
  (42966, 42968, 2, 42967); (42997, 42997, 1, 42998); (65313, 65338, 1, 65345); (66560, 66599, 1, 66600);
  (66736, 66771, 1, 66776); (66928, 66938, 1, 66967); (66940, 66954, 1, 66979); (66956, 66962, 1, 66995);
  (66964, 66965, 1, 67003); (68736, 68786, 1, 68800); (71840, 71871, 1, 71872); (93760, 93791, 1, 93792);
  (125184, 125217, 1, 125218)
  ]%N.

(** Code points with the [Cased] property. *)
Definition cased_ranges : list (N * N) :=
  [
  (65, 90); (97, 122); (170, 170); (181, 181); (186, 186); (192, 214);
  (216, 246); (248, 442); (444, 447); (452, 659); (661, 696); (704, 705);
  (736, 740); (837, 837); (880, 883); (886, 887); (890, 893); (895, 895);
  (902, 902); (904, 906); (908, 908); (910, 929); (931, 1013); (1015, 1153);
  (1162, 1327); (1329, 1366); (1376, 1416); (4256, 4293); (4295, 4295); (4301, 4301);
  (4304, 4346); (4349, 4351); (5024, 5109); (5112, 5117); (7296, 7304); (7312, 7354);
  (7357, 7359); (7424, 7615); (7680, 7957); (7960, 7965); (7968, 8005); (8008, 8013);
  (8016, 8023); (8025, 8025); (8027, 8027); (8029, 8029); (8031, 8061); (8064, 8116);
  (8118, 8124); (8126, 8126); (8130, 8132); (8134, 8140); (8144, 8147); (8150, 8155);
  (8160, 8172); (8178, 8180); (8182, 8188); (8305, 8305); (8319, 8319); (8336, 8348);
  (8450, 8450); (8455, 8455); (8458, 8467); (8469, 8469); (8473, 8477); (8484, 8484);
  (8486, 8486); (8488, 8488); (8490, 8493); (8495, 8500); (8505, 8505); (8508, 8511);
  (8517, 8521); (8526, 8526); (8544, 8575); (8579, 8580); (9398, 9449); (11264, 11492);
  (11499, 11502); (11506, 11507); (11520, 11557); (11559, 11559); (11565, 11565); (42560, 42605);
  (42624, 42653); (42786, 42887); (42891, 42894); (42896, 42954); (42960, 42961); (42963, 42963);
  (42965, 42969); (42997, 42998); (43000, 43002); (43824, 43866); (43868, 43880); (43888, 43967);
  (64256, 64262); (64275, 64279); (65313, 65338); (65345, 65370); (66560, 66639); (66736, 66771);
  (66776, 66811); (66928, 66938); (66940, 66954); (66956, 66962); (66964, 66965); (66967, 66977);
  (66979, 66993); (66995, 67001); (67003, 67004); (67456, 67456); (67459, 67461); (67463, 67504);
  (67506, 67514); (68736, 68786); (68800, 68850); (71840, 71903); (93760, 93823); (119808, 119892);
  (119894, 119964); (119966, 119967); (119970, 119970); (119973, 119974); (119977, 119980); (119982, 119993);
  (119995, 119995); (119997, 120003); (120005, 120069); (120071, 120074); (120077, 120084); (120086, 120092);
  (120094, 120121); (120123, 120126); (120128, 120132); (120134, 120134); (120138, 120144); (120146, 120485);
  (120488, 120512); (120514, 120538); (120540, 120570); (120572, 120596); (120598, 120628); (120630, 120654);
  (120656, 120686); (120688, 120712); (120714, 120744); (120746, 120770); (120772, 120779); (122624, 122633);
  (122635, 122654); (125184, 125251); (127280, 127305); (127312, 127337); (127344, 127369)
  ]%N.

(** Code points with the [Case_Ignorable] property. *)
Definition case_ignorable_ranges : list (N * N) :=
  [
  (39, 39); (46, 46); (58, 58); (94, 94); (96, 96); (168, 168);
  (173, 173); (175, 175); (180, 180); (183, 184); (688, 879); (884, 885);
  (890, 890); (900, 901); (903, 903); (1155, 1161); (1369, 1369); (1375, 1375);
  (1425, 1469); (1471, 1471); (1473, 1474); (1476, 1477); (1479, 1479); (1524, 1524);
  (1536, 1541); (1552, 1562); (1564, 1564); (1600, 1600); (1611, 1631); (1648, 1648);
  (1750, 1757); (1759, 1768); (1770, 1773); (1807, 1807); (1809, 1809); (1840, 1866);
  (1958, 1968); (2027, 2037); (2042, 2042); (2045, 2045); (2070, 2093); (2137, 2139);
  (2184, 2184); (2192, 2193); (2200, 2207); (2249, 2306); (2362, 2362); (2364, 2364);
  (2369, 2376); (2381, 2381); (2385, 2391); (2402, 2403); (2417, 2417); (2433, 2433);
  (2492, 2492); (2497, 2500); (2509, 2509); (2530, 2531); (2558, 2558); (2561, 2562);
  (2620, 2620); (2625, 2626); (2631, 2632); (2635, 2637); (2641, 2641); (2672, 2673);
  (2677, 2677); (2689, 2690); (2748, 2748); (2753, 2757); (2759, 2760); (2765, 2765);
  (2786, 2787); (2810, 2815); (2817, 2817); (2876, 2876); (2879, 2879); (2881, 2884);
  (2893, 2893); (2901, 2902); (2914, 2915); (2946, 2946); (3008, 3008); (3021, 3021);
  (3072, 3072); (3076, 3076); (3132, 3132); (3134, 3136); (3142, 3144); (3146, 3149);
  (3157, 3158); (3170, 3171); (3201, 3201); (3260, 3260); (3263, 3263); (3270, 3270);
  (3276, 3277); (3298, 3299); (3328, 3329); (3387, 3388); (3393, 3396); (3405, 3405);
  (3426, 3427); (3457, 3457); (3530, 3530); (3538, 3540); (3542, 3542); (3633, 3633);
  (3636, 3642); (3654, 3662); (3761, 3761); (3764, 3772); (3782, 3782); (3784, 3789);
  (3864, 3865); (3893, 3893); (3895, 3895); (3897, 3897); (3953, 3966); (3968, 3972);
  (3974, 3975); (3981, 3991); (3993, 4028); (4038, 4038); (4141, 4144); (4146, 4151);
  (4153, 4154); (4157, 4158); (4184, 4185); (4190, 4192); (4209, 4212); (4226, 4226);
  (4229, 4230); (4237, 4237); (4253, 4253); (4348, 4348); (4957, 4959); (5906, 5908);
  (5938, 5939); (5970, 5971); (6002, 6003); (6068, 6069); (6071, 6077); (6086, 6086);
  (6089, 6099); (6103, 6103); (6109, 6109); (6155, 6159); (6211, 6211); (6277, 6278);
  (6313, 6313); (6432, 6434); (6439, 6440); (6450, 6450); (6457, 6459); (6679, 6680);
  (6683, 6683); (6742, 6742); (6744, 6750); (6752, 6752); (6754, 6754); (6757, 6764);
  (6771, 6780); (6783, 6783); (6823, 6823); (6832, 6862); (6912, 6915); (6964, 6964);
  (6966, 6970); (6972, 6972); (6978, 6978); (7019, 7027); (7040, 7041); (7074, 7077);
  (7080, 7081); (7083, 7085); (7142, 7142); (7144, 7145); (7149, 7149); (7151, 7153);
  (7212, 7219); (7222, 7223); (7288, 7293); (7376, 7378); (7380, 7392); (7394, 7400);
  (7405, 7405); (7412, 7412); (7416, 7417); (7468, 7530); (7544, 7544); (7579, 7679);
  (8125, 8125); (8127, 8129); (8141, 8143); (8157, 8159); (8173, 8175); (8189, 8190);
  (8203, 8207); (8216, 8217); (8228, 8228); (8231, 8231); (8234, 8238); (8288, 8292);
  (8294, 8303); (8305, 8305); (8319, 8319); (8336, 8348); (8400, 8432); (11388, 11389);
  (11503, 11505); (11631, 11631); (11647, 11647); (11744, 11775); (11823, 11823); (12293, 12293);
  (12330, 12333); (12337, 12341); (12347, 12347); (12441, 12446); (12540, 12542); (40981, 40981);
  (42232, 42237); (42508, 42508); (42607, 42610); (42612, 42621); (42623, 42623); (42652, 42655);
  (42736, 42737); (42752, 42785); (42864, 42864); (42888, 42890); (42994, 42996); (43000, 43001);
  (43010, 43010); (43014, 43014); (43019, 43019); (43045, 43046); (43052, 43052); (43204, 43205);
  (43232, 43249); (43263, 43263); (43302, 43309); (43335, 43345); (43392, 43394); (43443, 43443);
  (43446, 43449); (43452, 43453); (43471, 43471); (43493, 43494); (43561, 43566); (43569, 43570);
  (43573, 43574); (43587, 43587); (43596, 43596); (43632, 43632); (43644, 43644); (43696, 43696);
  (43698, 43700); (43703, 43704); (43710, 43711); (43713, 43713); (43741, 43741); (43756, 43757);
  (43763, 43764); (43766, 43766); (43867, 43871); (43881, 43883); (44005, 44005); (44008, 44008);
  (44013, 44013); (64286, 64286); (64434, 64450); (65024, 65039); (65043, 65043); (65056, 65071);
  (65106, 65106); (65109, 65109); (65279, 65279); (65287, 65287); (65294, 65294); (65306, 65306);
  (65342, 65342); (65344, 65344); (65392, 65392); (65438, 65439); (65507, 65507); (65529, 65531);
  (66045, 66045); (66272, 66272); (66422, 66426); (67456, 67461); (67463, 67504); (67506, 67514);
  (68097, 68099); (68101, 68102); (68108, 68111); (68152, 68154); (68159, 68159); (68325, 68326);
  (68900, 68903); (69291, 69292); (69446, 69456); (69506, 69509); (69633, 69633); (69688, 69702);
  (69744, 69744); (69747, 69748); (69759, 69761); (69811, 69814); (69817, 69818); (69821, 69821);
  (69826, 69826); (69837, 69837); (69888, 69890); (69927, 69931); (69933, 69940); (70003, 70003);
  (70016, 70017); (70070, 70078); (70089, 70092); (70095, 70095); (70191, 70193); (70196, 70196);
  (70198, 70199); (70206, 70206); (70367, 70367); (70371, 70378); (70400, 70401); (70459, 70460);
  (70464, 70464); (70502, 70508); (70512, 70516); (70712, 70719); (70722, 70724); (70726, 70726);
  (70750, 70750); (70835, 70840); (70842, 70842); (70847, 70848); (70850, 70851); (71090, 71093);
  (71100, 71101); (71103, 71104); (71132, 71133); (71219, 71226); (71229, 71229); (71231, 71232);
  (71339, 71339); (71341, 71341); (71344, 71349); (71351, 71351); (71453, 71455); (71458, 71461);
  (71463, 71467); (71727, 71735); (71737, 71738); (71995, 71996); (71998, 71998); (72003, 72003);
  (72148, 72151); (72154, 72155); (72160, 72160); (72193, 72202); (72243, 72248); (72251, 72254);
  (72263, 72263); (72273, 72278); (72281, 72283); (72330, 72342); (72344, 72345); (72752, 72758);
  (72760, 72765); (72767, 72767); (72850, 72871); (72874, 72880); (72882, 72883); (72885, 72886);
  (73009, 73014); (73018, 73018); (73020, 73021); (73023, 73029); (73031, 73031); (73104, 73105);
  (73109, 73109); (73111, 73111); (73459, 73460); (78896, 78904); (92912, 92916); (92976, 92982);
  (92992, 92995); (94031, 94031); (94095, 94111); (94176, 94177); (94179, 94180); (110576, 110579);
  (110581, 110587); (110589, 110590); (113821, 113822); (113824, 113827); (118528, 118573); (118576, 118598);
  (119143, 119145); (119155, 119170); (119173, 119179); (119210, 119213); (119362, 119364); (121344, 121398);
  (121403, 121452); (121461, 121461); (121476, 121476); (121499, 121503); (121505, 121519); (122880, 122886);
  (122888, 122904); (122907, 122913); (122915, 122916); (122918, 122922); (123184, 123197); (123566, 123566);
  (123628, 123631); (125136, 125142); (125252, 125259); (127995, 127999); (917505, 917505); (917536, 917631);
  (917760, 917999)
  ]%N.

(** Code points [str.isspace] accepts. *)
Definition whitespace_ranges : list (N * N) :=
  [
  (9, 13); (28, 32); (133, 133); (160, 160); (5760, 5760); (8192, 8202);
  (8232, 8233); (8239, 8239); (8287, 8287); (12288, 12288)
  ]%N.

Definition in_ranges (c : N) (rs : list (N * N)) : bool :=
  existsb (fun r => (fst r <=? c)%N && (c <=? snd r)%N) rs.

(** [Py_UNICODE_ISSPACE] *)
Definition isspace (c : N) : bool := in_ranges c whitespace_ranges.

(** [_PyUnicode_IsCased] and [_PyUnicode_IsCaseIgnorable] *)
Definition is_cased (c : N) : bool := in_ranges c cased_ranges.
Definition is_case_ignorable (c : N) : bool := in_ranges c case_ignorable_ranges.

Definition covers (c : N) (r : N * N * N * N) : bool :=
  let '(first, last, step, _) := r in
  ((first <=? c) && (c <=? last) && ((c - first) mod step =? 0))%N.

(** [_PyUnicode_ToLowercase] *)
Definition to_lower (c : N) : N :=
  match find (covers c) lowercase_ranges with
  | Some (first, _, _, target) => (target + (c - first))%N
  | None => c
  end.

(** [_PyUnicode_ToLowerFull]: U+0130 is the one code point whose lowercase
    form is longer than one code point (U+0069 U+0307). *)
Definition to_lower_full (c : N) : list N :=
  if (c =? 304)%N then [105; 775]%N else [to_lower c].

End Unicode.

(** * Python text *)

(** A [str] is a sequence of code points. *)
Definition str : Type := list N.

(** A literal of the source made of ASCII characters only. *)
Definition lit (s : string) : str := map N_of_ascii (list_ascii_of_string s).

Definition str_eqb (a b : str) : bool :=
  if list_eq_dec N.eq_dec a b then true else false.

(** [len(s)] counts code points. *)
Definition len (s : str) : nat := List.length s.

(** Truth value of a text: the empty text is false. *)
Definition str_bool (s : str) : bool :=
  match s with [] => false | _ :: _ => true end.

(** The surrogate code points U+D800..U+DFFF. A [str] may hold them (the
    JSON escape [\ud800] decodes to one), but no text holding one can be
    encoded as UTF-8. *)
Definition surrogate (c : N) : bool := ((55296 <=? c) && (c <=? 57343))%N.

(** [s.encode("utf-8")] succeeds. *)
Definition utf8_encodable (s : str) : bool :=
  forallb (fun c => negb (surrogate c)) s.

Fixpoint lstrip (s : str) : str :=
  match s with
  | c :: r => if Unicode.isspace c then lstrip r else s
  | [] => []
  end.

Definition rstrip (s : str) : str := rev (lstrip (rev s)).

(** [str.strip()] without argument removes white space at both ends. *)
Definition strip (s : str) : str := rstrip (lstrip s).

Fixpoint skip_case_ignorable (s : str) : str :=
  match s with
  | c :: r => if Unicode.is_case_ignorable c then skip_case_ignorable r else s
  | [] => []
  end.

(** [handle_capital_sigma]: a capital sigma is final when a cased letter
    precedes it and none follows, case-ignorable code points skipped.
    [before] holds the preceding code points, nearest first. *)
Definition final_sigma (before after : str) : bool :=
  match skip_case_ignorable before with
  | c :: _ =>
      Unicode.is_cased c &&
      match skip_case_ignorable after with
      | d :: _ => negb (Unicode.is_cased d)
      | [] => true
      end
  | [] => false
  end.

(** [lower_ucs4] *)
Definition lower_ucs4 (before : str) (c : N) (after : str) : list N :=
  if (c =? 931)%N
  then [if final_sigma before after then 962%N else 963%N]
  else Unicode.to_lower_full c.

Fixpoint do_lower (before rest : str) : str :=
  match rest with
  | c :: after => lower_ucs4 before c after ++ do_lower (c :: before) after
  | [] => []
  end.

(** [str.lower()]. CPython lowercases an all-ASCII text by a shorter route
    that gives the same result. *)
Definition lower (s : str) : str := do_lower [] s.

(** * Outcomes and exceptions *)

(** A call either returns a value or raises. *)
Inductive result (E A : Type) : Type :=
| Return (a : A)
| Raise (e : E).

Arguments Return {E A} a.
Arguments Raise {E A} e.

(** [fastapi.HTTPException(status_code, detail)] *)
Record HTTPException : Type := {
  status_code : Z;
  detail : str
}.

(** * POST /api/explain *)

Module ExplainRequest.

Record t : Type := {
  query : str;
  mode : str
}.

(** The JSON body: [query] is required, [mode] may be left out. *)
Record body : Type := {
  body_query : str;
  body_mode : option str
}.

(** Field defaults of the model: [mode: str = Field("expert", ...)]. *)
Definition validate (b : body) : t :=
  {| query := body_query b;
     mode := match body_mode b with Some m => m | None => lit "expert" end |}.

End ExplainRequest.

Module ExplainResponse.

Record t : Type := {
  mode : str;
  summary : str;
  key_points : list str;
  confidence : float;
  sources : list str
}.

(** The response can be written out as JSON and encoded as UTF-8: every
    text is encodable and the number is finite. *)
Definition encodable (r : t) : bool :=
  utf8_encodable (mode r) && utf8_encodable (summary r)
  && forallb utf8_encodable (key_points r)
  && negb (is_nan (confidence r) || is_infinity (confidence r))
  && forallb utf8_encodable (sources r).

End ExplainResponse.

Definition explain (req : ExplainRequest.t)
  : result HTTPException ExplainResponse.t :=
  if negb (str_bool (ExplainRequest.query req))
     || (len (strip (ExplainRequest.query req)) <? 3)%nat
  then Raise {| status_code := 400; detail := lit "Query is too short" |}
  else
    let style :=
      if str_eqb (lower (ExplainRequest.mode req)) (lit "beginner")
      then lit "Beginner" else lit "Expert" in
    let points :=
      [ lit "Price action concentrated around key liquidity zones";
        lit "Funding rates normalizing after recent spikes";
        lit "Net exchange outflows suggest accumulation";
        lit "Derivatives skew implies moderate upside bias" ] in
    Return
      {| ExplainResponse.mode := lower style;
         ExplainResponse.summary :=
           style ++ lit " view: " ++ strip (ExplainRequest.query req)
           ++ lit " likely driven by liquidity rotation, macro risk appetite, and exchange flow dynamics.";
         ExplainResponse.key_points := points;
         ExplainResponse.confidence := 0.72%float;
         ExplainResponse.sources :=
           [ lit "CeFi spot feeds";
             lit "On-chain exchange flows";
             lit "Derivatives funding + OI" ] |}.

(** The route: the body is validated into an [ExplainRequest], then handled. *)
Definition post_explain (b : ExplainRequest.body)
  : result HTTPException ExplainResponse.t :=
  explain (ExplainRequest.validate b).

(** The status the route answers with. What the handler returns is written
    out as JSON and encoded as UTF-8: 200 when that succeeds, 500 when it
    fails. A raised [HTTPException] is answered with its [status_code] and
    its [detail], written out the same way. *)
Definition http_status (r : result HTTPException ExplainResponse.t) : Z :=
  match r with
  | Return resp => if ExplainResponse.encodable resp then 200%Z else 500%Z
  | Raise e => if utf8_encodable (detail e) then status_code e else 500%Z
  end.

(** * Python values and dictionaries *)

(** The values the handlers put into their JSON payloads. *)
Inductive pyval : Type :=
| PNone
| PStr (s : str)
| PInt (z : Z)
| PFloat (f : float)
| PList (l : list pyval)
| PDict (d : list (string * pyval)).

(** A [dict] keeps its keys in insertion order; the keys are the literals
    of the source. *)
Definition dict : Type := list (string * pyval).

(** [d.get(k)] *)
Fixpoint dict_get (k : string) (d : dict) : option pyval :=
  match d with
  | (k', v) :: d' => if String.eqb k k' then Some v else dict_get k d'
  | [] => None
  end.

(** [d[k] = v]: an existing key keeps its place, a new key goes last. *)
Fixpoint dict_set (k : string) (v : pyval) (d : dict) : dict :=
  match d with
  | (k', v') :: d' =>
      if String.eqb k k' then (k', v) :: d' else (k', v') :: dict_set k v d'
  | [] => [(k, v)]
  end.

Definition keys (d : dict) : list string := map fst d.

(** A value can be written out as JSON and encoded as UTF-8: no text in it
    holds a surrogate and no number in it is infinite or not a number. *)
Fixpoint encodable (v : pyval) : bool :=
  match v with
  | PNone => true
  | PStr s => utf8_encodable s
  | PInt _ => true
  | PFloat f => negb (is_nan f || is_infinity f)
  | PList l => forallb encodable l
  | PDict d => forallb (fun kv => encodable (snd kv)) d
  end.

Definition payload_encodable (d : dict) : bool :=
  forallb (fun kv => encodable (snd kv)) d.

(** * GET /test *)

(** The classes the handler's clauses tell apart: [ImportError], below
    [Exception], below [BaseException]. An exception of class
    [BaseException] here is one outside [Exception] ([KeyboardInterrupt],
    [SystemExit], ...). *)
Inductive exception_class : Type :=
| ImportError
| Exception
| BaseException.

Definition issubclass (c d : exception_class) : bool :=
  match c, d with
  | ImportError, _ => true
  | Exception, ImportError => false
  | Exception, _ => true
  | BaseException, BaseException => true
  | BaseException, _ => false
  end.

(** A raised exception: its class and what the call [str(e)] does, which
    returns a text or itself raises. *)
Inductive exn : Type := Exn {
  class_of : exception_class;
  str_of : result exn str
}.

Definition isinstance (e : exn) (c : exception_class) : bool :=
  issubclass (class_of e) c.

(** The object the name [db] of module [database] is bound to, seen through
    the three uses the handler makes of it. *)
Record database_handle : Type := {
  hasattr_name : result exn bool;              (* hasattr(db, 'name') *)
  name : result exn pyval;                     (* db.name *)
  list_collection_names : result exn (list str)  (* db.list_collection_names() *)
}.

(** Outcome of [from database import db]: the import raises, or [db] is
    [None] or a handle. *)
Definition database_import : Type := result exn (option database_handle).

(** [os.getenv]: the process environment. *)
Definition environ : Type := string -> option str.

(** Truth value of what [os.getenv] returns: [None] and the empty text are
    false. *)
Definition getenv_bool (v : option str) : bool :=
  match v with
  | Some s => str_bool s
  | None => false
  end.

(** The handler mutates the dictionary [response] in place, so what was
    stored before an exception is raised stays stored: computations thread
    the dictionary through returns and raises alike. *)
Definition M (A : Type) : Type := dict -> result exn A * dict.

Definition ret {A : Type} (a : A) : M A := fun d => (Return a, d).

Definition bind {A B : Type} (m : M A) (k : A -> M B) : M B :=
  fun d =>
    match m d with
    | (Return a, d') => k a d'
    | (Raise e, d') => (Raise e, d')
    end.

(** An external call whose outcome is given. *)
Definition call {A : Type} (r : result exn A) : M A := fun d => (r, d).

(** [response[k] = v] *)
Definition setitem (k : string) (v : pyval) : M unit :=
  fun d => (Return tt, dict_set k v d).

Definition get_response : M dict := fun d => (Return d, d).

(** The [except] clauses of a [try], tried in order; an exception no clause
    matches propagates, and so does one raised inside a clause. *)
Fixpoint handle {A : Type} (clauses : list (exception_class * (exn -> M A)))
  (e : exn) : M A :=
  match clauses with
  | (c, h) :: rest => if isinstance e c then h e else handle rest e
  | [] => fun d => (Raise e, d)
  end.

Definition try_except {A : Type} (body : M A)
  (clauses : list (exception_class * (exn -> M A))) : M A :=
  fun d =>
    match body d with
    | (Return a, d') => (Return a, d')
    | (Raise e, d') => handle clauses e d'
    end.

Declare Scope py_scope.
Delimit Scope py_scope with py.
Notation "x <- m ;; k" := (bind m (fun x => k))
  (at level 61, m at next level, right associativity) : py_scope.
Notation "m ;; k" := (bind m (fun _ => k))
  (at level 61, right associativity) : py_scope.

Definition check_mark : str := [9989%N].           (* U+2705 *)
Definition cross_mark : str := [10060%N].          (* U+274C *)
Definition warning_sign : str := [9888; 65039]%N.  (* U+26A0 U+FE0F *)

Definition initial_response : dict :=
  [ ("backend"%string, PStr (check_mark ++ lit " Running"));
    ("database"%string, PStr (cross_mark ++ lit " Not Available"));
    ("database_url"%string, PNone);
    ("database_name"%string, PNone);
    ("connection_status"%string, PStr (lit "Not Connected"));
    ("collections"%string, PList []) ].

Definition probe (database : database_import) : M unit :=
  (try_except
     (db <- call database ;;
      match db with
      | Some db =>
          setitem "database" (PStr (check_mark ++ lit " Available")) ;;
          setitem "database_url" (PStr (check_mark ++ lit " Configured")) ;;
          has_name <- call (hasattr_name db) ;;
          db_name <- (if has_name : bool then call (name db)
                      else ret (PStr (check_mark ++ lit " Connected"))) ;;
          setitem "database_name" db_name ;;
          setitem "connection_status" (PStr (lit "Connected")) ;;
          try_except
            (collections <- call (list_collection_names db) ;;
             setitem "collections" (PList (map PStr (firstn 10 collections))) ;;
             setitem "database" (PStr (check_mark ++ lit " Connected & Working")))
            [ (Exception, fun e =>
                 text <- call (str_of e) ;;
                 setitem "database"
                   (PStr (warning_sign ++ lit "  Connected but Error: "
                          ++ firstn 50 text))) ]
      | None =>
          setitem "database"
            (PStr (warning_sign ++ lit "  Available but not initialized"))
      end)
     [ (ImportError, fun _ =>
          setitem "database"
            (PStr (cross_mark
                   ++ lit " Database module not found (run enable-database first)")));
       (Exception, fun e =>
          text <- call (str_of e) ;;
          setitem "database"
            (PStr (cross_mark ++ lit " Error: " ++ firstn 50 text))) ])%py.

Definition test_database (database : database_import) (getenv : environ)
  : result exn dict :=
  fst ((probe database ;;
        setitem "database_url"
          (PStr (if getenv_bool (getenv "DATABASE_URL"%string)
                 then check_mark ++ lit " Set"
                 else cross_mark ++ lit " Not Set")) ;;
        setitem "database_name"
          (PStr (if getenv_bool (getenv "DATABASE_NAME"%string)
                 then check_mark ++ lit " Set"
                 else cross_mark ++ lit " Not Set")) ;;
        get_response)%py initial_response).

(** The status the route answers with: 200 for a returned payload that can
    be written out as JSON and encoded as UTF-8, 500 when it cannot or when
    an exception escapes the handler. *)
Definition server_status (r : result exn dict) : Z :=
  match r with
  | Return payload => if payload_encodable payload then 200%Z else 500%Z
  | Raise _ => 500%Z
  end.

(** * The wall clock *)

(** A naive [datetime], as [datetime.utcnow()] returns it. *)
Record datetime : Type := {
  year : N;
  month : N;
  day : N;
  hour : N;
  minute : N;
  second : N;
  microsecond : N
}.

(** The decimal digit of [n] at position [k], as a code point. *)
Definition digit (n k : N) : N := (48 + (n / 10 ^ k) mod 10)%N.

Definition zfill2 (n : N) : str := [digit n 1; digit n 0].
Definition zfill4 (n : N) : str := [digit n 3; digit n 2; digit n 1; digit n 0].
Definition zfill6 (n : N) : str :=
  [digit n 5; digit n 4; digit n 3; digit n 2; digit n 1; digit n 0].

(** [datetime.isoformat()]: [YYYY-MM-DDTHH:MM:SS], followed by [.ffffff]
    when the microseconds are not zero. *)
Definition isoformat (t : datetime) : str :=
  zfill4 (year t) ++ lit "-" ++ zfill2 (month t) ++ lit "-" ++ zfill2 (day t)
  ++ lit "T" ++ zfill2 (hour t) ++ lit ":" ++ zfill2 (minute t)
  ++ lit ":" ++ zfill2 (second t)
  ++ (if (microsecond t =? 0)%N then [] else lit "." ++ zfill6 (microsecond t)).

(** The clock as the handlers see it: the [n]-th reading is [reading n];
    [reads] counts the readings taken so far. *)
Record clock : Type := {
  reading : nat -> datetime;
  reads : nat
}.

(** [datetime.utcnow()] *)
Definition utcnow (w : clock) : datetime * clock :=
  (reading w (reads w), {| reading := reading w; reads := S (reads w) |}).

(** * GET /api/market/overview *)

Definition market_overview (w : clock) : dict * clock :=
  let (t, w) := utcnow w in
  let now := isoformat t ++ lit "Z" in
  let sectors :=
    PList
      [ PDict
          [ ("name"%string, PStr (lit "Layer 1s"));
            ("change24h"%string, PFloat 2.4%float);
            ("volume"%string, PInt 18200000000);
            ("assets"%string,
             PList
               [ PDict [ ("symbol"%string, PStr (lit "BTC"));
                         ("change24h"%string, PFloat 1.2%float);
                         ("marketCap"%string, PInt 1250000000000) ];
                 PDict [ ("symbol"%string, PStr (lit "ETH"));
                         ("change24h"%string, PFloat 2.9%float);
                         ("marketCap"%string, PInt 450000000000) ] ]) ];
        PDict
          [ ("name"%string, PStr (lit "DeFi"));
            ("change24h"%string, PFloat (-1.1)%float);
            ("volume"%string, PInt 4800000000);
            ("assets"%string,
             PList
               [ PDict [ ("symbol"%string, PStr (lit "UNI"));
                         ("change24h"%string, PFloat (-0.8)%float);
                         ("marketCap"%string, PInt 8900000000) ];
                 PDict [ ("symbol"%string, PStr (lit "AAVE"));
                         ("change24h"%string, PFloat (-2.1)%float);
                         ("marketCap"%string, PInt 1500000000) ] ]) ];
        PDict
          [ ("name"%string, PStr (lit "NFT / Gaming"));
            ("change24h"%string, PFloat 0.6%float);
            ("volume"%string, PInt 980000000);
            ("assets"%string,
             PList
               [ PDict [ ("symbol"%string, PStr (lit "IMX"));
                         ("change24h"%string, PFloat 1.8%float);
                         ("marketCap"%string, PInt 3400000000) ];
                 PDict [ ("symbol"%string, PStr (lit "APE"));
                         ("change24h"%string, PFloat (-0.3)%float);
                         ("marketCap"%string, PInt 650000000) ] ]) ] ] in
  let heatmap :=
    PList
      [ PDict [ ("id"%string, PStr (lit "BTC")); ("value"%string, PFloat 1.2%float) ];
        PDict [ ("id"%string, PStr (lit "ETH")); ("value"%string, PFloat 2.9%float) ];
        PDict [ ("id"%string, PStr (lit "SOL")); ("value"%string, PFloat 3.8%float) ];
        PDict [ ("id"%string, PStr (lit "BNB")); ("value"%string, PFloat (-0.7)%float) ];
        PDict [ ("id"%string, PStr (lit "ARB")); ("value"%string, PFloat 1.1%float) ];
        PDict [ ("id"%string, PStr (lit "OP")); ("value"%string, PFloat 0.5%float) ] ] in
  ([ ("updatedAt"%string, PStr now);
     ("sectors"%string, sectors);
     ("heatmap"%string, heatmap) ], w).

(** * GET /api/reports *)

(** The two [createdAt] entries are evaluated in order, each with its own
    reading of the clock. *)
Definition list_reports (w : clock) : dict * clock :=
  let (t1, w) := utcnow w in
  let (t2, w) := utcnow w in
  ([ ("items"%string,
      PList
        [ PDict
            [ ("id"%string, PStr (lit "weekly-crypto-outlook"));
              ("title"%string, PStr (lit "Weekly Crypto Outlook"));
              ("period"%string, PStr (lit "Week 46"));
              ("createdAt"%string, PStr (isoformat t1 ++ lit "Z")) ];
          PDict
            [ ("id"%string, PStr (lit "macro-brief"));
              ("title"%string, PStr (lit "Macro Brief: Rates + Liquidity"));
              ("period"%string, PStr (lit "This Week"));
              ("createdAt"%string, PStr (isoformat t2 ++ lit "Z")) ] ]) ], w).

(** * GET / and GET /api/hello *)



(** * The application *)





(** * Reading payloads *)

(** [v[k]] for a dictionary value, [v[i]] and [len(v)] for a list value. *)
Definition item (k : string) (v : pyval) : option pyval :=
  match v with
  | PDict d => dict_get k d
  | _ => None
  end.

Definition elements (v : pyval) : option (list pyval) :=
  match v with
  | PList l => Some l
  | _ => None
  end.

(** The payload with one top-level key left out. *)
Definition without (k : string) (d : dict) : dict :=
  filter (fun kv => negb (String.eqb k (fst kv))) d.

(** * Case-insensitive comparison, as the specification words it *)

(** Folding of the letters A-Z onto a-z. *)
Definition fold_case (c : N) : N :=
  if ((65 <=? c) && (c <=? 90))%N then (c + 32)%N else c.

(** Two texts are equal case-insensitively when they agree code point by
    code point once capital letters are replaced by small ones. *)
Definition caseless_eq (a b : str) : Prop := map fold_case a = map fold_case b.

(** A small letter other than [k]: the code points no character outside
    A-Z, a-z lowercases to (U+212A KELVIN SIGN lowercases to [k]). *)
Definition plain_small_letter (d : N) : bool :=
  ((97 <=? d) && (d <=? 122) && negb (d =? 107))%N.

(** What a range of the lowercase table must satisfy for its images to stay
    clear of the plain small letters: it is the range A-Z itself, or its
    images lie above [z] or below [a], or it is the single code point that
    maps to [k]. *)
Definition range_clear (r : N * N * N * N) : bool :=
  let '(first, last, step, target) := r in
  (((first =? 65) && (last =? 90) && (step =? 1) && (target =? 97))
   || (122 <? target)
   || (target + (last - first) <? 97)
   || ((first =? last) && (target =? 107)))%N.

(** On a code point [c], lowercasing is folding. *)
Definition lowers_by_folding (c : N) : bool :=
  str_eqb (Unicode.to_lower_full c) [fold_case c].

(** * How the probe of the database ends *)

Inductive probe_end : Type :=
| ImportRaised (e : exn)        (* the module is missing, or importing it fails *)
| HandleNone                    (* [db] is [None] *)
| AttributeRaised (e : exn)     (* [hasattr(db, 'name')] or [db.name] raises *)
| ListingRaised (e : exn)       (* [db.list_collection_names()] raises *)
| Listed (names : list str).    (* the listing succeeds *)

Definition probe_end_of (database : database_import) : probe_end :=
  match database with
  | Raise e => ImportRaised e
  | Return None => HandleNone
  | Return (Some db) =>
      match hasattr_name db with
      | Raise e => AttributeRaised e
      | Return has_name =>
          match (if has_name then name db else Return PNone) with
          | Raise e => AttributeRaised e
          | Return _ =>
              match list_collection_names db with
              | Raise e => ListingRaised e
              | Return names => Listed names
              end
          end
      end
  end.

(** What becomes of a fault that reaches the outer clauses: a missing
    module and any other [Exception] are put into words, the latter with
    the first 50 code points of its text; a fault outside [Exception], and
    one raised while taking that text, escape. *)
Definition outer_words (e : exn) : result exn str :=
  if isinstance e ImportError
  then Return (cross_mark
               ++ lit " Database module not found (run enable-database first)")
  else if isinstance e Exception
  then match str_of e with
       | Return text => Return (cross_mark ++ lit " Error: " ++ firstn 50 text)
       | Raise e' => Raise e'
       end
  else Raise e.

(** The text the [database] field describes each end with, or the
    exception that escapes the handler. A fault of the listing is put into
    words by the inner clause; when taking its text raises, that new fault
    reaches the outer clauses. *)
Definition described (o : probe_end) : result exn str :=
  match o with
  | ImportRaised e | AttributeRaised e => outer_words e
  | HandleNone => Return (warning_sign ++ lit "  Available but not initialized")
  | ListingRaised e =>
      if isinstance e Exception
      then match str_of e with
           | Return text =>
               Return (warning_sign ++ lit "  Connected but Error: "
                       ++ firstn 50 text)
           | Raise e' => outer_words e'
           end
      else outer_words e
  | Listed _ => Return (check_mark ++ lit " Connected & Working")
  end.

(** An ordinary fault: an instance of [Exception] whose text can be taken. *)
Definition ordinary (e : exn) : Prop :=
  isinstance e Exception = true /\ exists text, str_of e = Return text.

(** The probe ends without a fault or with an ordinary one. *)
Definition ordinary_end (o : probe_end) : Prop :=
  match o with
  | ImportRaised e | AttributeRaised e | ListingRaised e => ordinary e
  | HandleNone | Listed _ => True
  end.


(** The probe ends with the fault [e]. *)
Definition ends_with (o : probe_end) (e : exn) : Prop :=
  o = ImportRaised e \/ o = AttributeRaised e \/ o = ListingRaised e.

(** The collection names the response reports. *)
Definition reported_collections (o : probe_end) : list str :=
  match o with
  | Listed names => firstn 10 names
  | _ => []
  end.

(** A variable is present in the environment when [os.getenv] does not
    return [None]. *)
Definition is_set (v : option str) : bool :=
  match v with
  | Some _ => true
  | None => false
  end.

(** The text of the [database_url] and [database_name] fields. *)
Definition set_text (b : bool) : pyval :=
  PStr (if b then check_mark ++ lit " Set" else cross_mark ++ lit " Not Set").

(** An environment in which [DATABASE_URL] is set, to the empty text, and
    [DATABASE_NAME] is not set. *)
Definition empty_database_url : environ :=
  fun k => if String.eqb k "DATABASE_URL" then Some [] else None.

(** A clock for examples: every reading is 2025-11-14 09:30:05.000120. *)
Definition sample_clock : clock :=
  {| reading := fun _ =>
       {| year := 2025; month := 11; day := 14;
          hour := 9; minute := 30; second := 5; microsecond := 120 |};
     reads := 0 |}.



(** A query of four code points, the first a lone surrogate. *)
Definition surrogate_query : ExplainRequest.body :=
  {| ExplainRequest.body_query := 55296%N :: lit "abc";
     ExplainRequest.body_mode := None |}.

(** A handle whose listing is interrupted from the keyboard: the exception
    raised is outside [Exception]. *)
Definition interrupted_listing : database_import :=
  Return (Some {| hasattr_name := Return false;
                  name := Return PNone;
                  list_collection_names :=
                    Raise {| class_of := BaseException; str_of := Return [] |} |}).

(** The probe got as far as calling [db.list_collection_names()]. *)
Definition reached_listing (o : probe_end) : bool :=
  match o with
  | ListingRaised _ | Listed _ => true
  | _ => false
  end.

(** The whole response for a given description of the probe's end. *)
Definition response_with (text : str) (o : probe_end) (getenv : environ) : dict :=
  [ ("backend"%string, PStr (check_mark ++ lit " Running"));
    ("database"%string, PStr text);
    ("database_url"%string,
     set_text (getenv_bool (getenv "DATABASE_URL"%string)));
    ("database_name"%string,
     set_text (getenv_bool (getenv "DATABASE_NAME"%string)));
    ("connection_status"%string,
     PStr (if reached_listing o then lit "Connected" else lit "Not Connected"));
    ("collections"%string, PList (map PStr (reported_collections o))) ].

(** * Notions for the further properties *)

(** The request asks for the beginner style: a mode is given and it is
    [beginner] up to case. *)
Definition asks_beginner (m : option str) : Prop :=
  exists s, m = Some s /\ caseless_eq s (lit "beginner").

(** The code points of a text that are not white space. *)
Definition visible (s : str) : str :=
  filter (fun c => negb (Unicode.isspace c)) s.

(** The field ranges a [datetime] object enforces. *)
Definition datetime_in_range (t : datetime) : Prop :=
  (1 <= year t <= 9999 /\ 1 <= month t <= 12 /\ 1 <= day t <= 31
   /\ hour t < 24 /\ minute t < 60 /\ second t < 60
   /\ microsecond t < 1000000)%N.

(** The characters of a timestamp: digits and the separators [-], [.],
    [:], [T], [Z]. *)
Definition timestamp_char (c : N) : bool :=
  (((48 <=? c) && (c <=? 57)) || (c =? 45) || (c =? 46) || (c =? 58)
   || (c =? 84) || (c =? 90))%N.

(** * Lemmas on dictionaries and exceptions *)

Lemma dict_get_set_eq (k : string) (v : pyval) (d : dict) :
  dict_get k (dict_set k v d) = Some v.
Proof.
  induction d as [| [k' v'] d IH]; simpl.
  - rewrite String.eqb_refl. reflexivity.
  - destruct (String.eqb k k') eqn:E; simpl; rewrite E; [reflexivity | exact IH].
Qed.

Lemma dict_get_set_neq (k k' : string) (v : pyval) (d : dict) :
  k <> k' -> dict_get k' (dict_set k v d) = dict_get k' d.
Proof.
  intros Hk. induction d as [| [k0 v0] d IH]; simpl.
  - destruct (String.eqb_spec k' k); [congruence | reflexivity].
  - destruct (String.eqb_spec k k0) as [-> | Hne]; simpl.
    + destruct (String.eqb_spec k' k0); [congruence | reflexivity].
    + destruct (String.eqb k' k0); [reflexivity | exact IH].
Qed.

(** Assigning to a key the dictionary has leaves the order of keys alone. *)
Lemma keys_dict_set (k : string) (v : pyval) (d : dict) :
  In k (keys d) -> keys (dict_set k v d) = keys d.
Proof.
  unfold keys. induction d as [| [k' v'] d IH]; simpl; [intros [] |].
  intros H. destruct (String.eqb_spec k k') as [-> | Hne]; simpl; [reflexivity |].
  f_equal. apply IH. destruct H as [H | H]; [congruence | exact H].
Qed.

(** [except Exception] catches what [except ImportError] catches. *)
Lemma isinstance_ImportError (e : exn) :
  isinstance e ImportError = true -> isinstance e Exception = true.
Proof. destruct e as [[| |] text]; simpl; (reflexivity || discriminate). Qed.

(** An exception outside [Exception] passes both clauses of the handler. *)
Lemma handle_escapes (h1 h2 : exn -> M unit) (e : exn) (d : dict) :
  isinstance e Exception = false ->
  handle [(ImportError, h1); (Exception, h2)] e d = (Raise e, d).
Proof.
  destruct e as [[| |] text]; simpl; intros H; (discriminate H || reflexivity).
Qed.

(** What was stored before a raise is still stored when the exception is
    caught. *)
Lemma try_except_keeps_stores (k : string) (v : pyval) (e : exn)
  (h : exn -> M unit) (d : dict) :
  isinstance e Exception = true ->
  try_except (bind (setitem k v) (fun _ => call (Raise e))) [(Exception, h)] d
  = h e (dict_set k v d).
Proof.
  intros H. unfold try_except, bind, setitem, call. simpl.
  rewrite H. reflexivity.
Qed.

(** * Lemmas on text *)

Lemma str_eqb_eq (a b : str) : str_eqb a b = true <-> a = b.
Proof.
  unfold str_eqb. destruct (list_eq_dec N.eq_dec a b); split; congruence.
Qed.

Lemma len_app (a b : str) : len (a ++ b) = (len a + len b)%nat.
Proof. unfold len. apply length_app. Qed.

Lemma lstrip_whitespace (s : str) :
  Forall (fun c => Unicode.isspace c = true) s -> lstrip s = [].
Proof.
  induction 1 as [| c r Hc _ IH]; simpl; [reflexivity |].
  rewrite Hc. exact IH.
Qed.

Lemma strip_whitespace (s : str) :
  Forall (fun c => Unicode.isspace c = true) s -> strip s = [].
Proof.
  intros H. unfold strip. rewrite (lstrip_whitespace s H). reflexivity.
Qed.

Lemma strip_nonempty (s : str) : (0 < len (strip s))%nat -> str_bool s = true.
Proof.
  destruct s as [| c r]; simpl; [| reflexivity].
  intros H. inversion H.
Qed.

(** ** [str.strip] *)

Lemma lstrip_split (s : str) :
  exists l, s = l ++ lstrip s /\ Forall (fun c => Unicode.isspace c = true) l.
Proof.
  induction s as [| c r [l [E F]]]; simpl.
  - exists []. split; [reflexivity | constructor].
  - destruct (Unicode.isspace c) eqn:Hc.
    + exists (c :: l). split; [simpl; f_equal; exact E | constructor; assumption].
    + exists []. split; [reflexivity | constructor].
Qed.

Lemma lstrip_head (s : str) (c : N) (r : str) :
  lstrip s = c :: r -> Unicode.isspace c = false.
Proof.
  induction s as [| d t IH]; simpl; [discriminate |].
  destruct (Unicode.isspace d) eqn:Hd; [exact IH |].
  intros H. injection H as <- _. exact Hd.
Qed.

Lemma lstrip_fixed (c : N) (r : str) :
  Unicode.isspace c = false -> lstrip (c :: r) = c :: r.
Proof. intros H. simpl. rewrite H. reflexivity. Qed.

Lemma rstrip_split (s : str) :
  exists r, s = rstrip s ++ r /\ Forall (fun c => Unicode.isspace c = true) r.
Proof.
  unfold rstrip. destruct (lstrip_split (rev s)) as [l [E F]].
  exists (rev l). split.
  - rewrite <- rev_app_distr, <- E. symmetry. apply rev_involutive.
  - apply Forall_rev, F.
Qed.

(** A text that starts with a visible code point keeps it under [rstrip]. *)
Lemma rstrip_keeps_head (c : N) (t : str) :
  Unicode.isspace c = false -> exists t', rstrip (c :: t) = c :: t'.
Proof.
  intros Hc. destruct (rstrip_split (c :: t)) as [r [E F]].
  destruct (rstrip (c :: t)) as [| d t'].
  - simpl in E. subst r. inversion_clear F as [| ? ? Hs _]. congruence.
  - simpl in E. injection E as <- _. exists t'. reflexivity.
Qed.

Lemma rstrip_last (s : str) (c : N) (r : str) :
  rev (rstrip s) = c :: r -> Unicode.isspace c = false.
Proof.
  unfold rstrip. rewrite rev_involutive. apply lstrip_head.
Qed.

Lemma rstrip_fixed (s : str) (c : N) (r : str) :
  rev s = c :: r -> Unicode.isspace c = false -> rstrip s = s.
Proof.
  intros E Hc. unfold rstrip. rewrite E, (lstrip_fixed c r Hc), <- E.
  apply rev_involutive.
Qed.

(** The trimmed text is empty or has a visible code point at both ends. *)
Lemma strip_ends (s : str) :
  strip s = []
  \/ exists c t d u,
       strip s = c :: t /\ rev (strip s) = d :: u
       /\ Unicode.isspace c = false /\ Unicode.isspace d = false.
Proof.
  unfold strip. destruct (lstrip s) as [| c t] eqn:E.
  - left. reflexivity.
  - right. pose proof (lstrip_head s c t E) as Hc.
    destruct (rstrip_keeps_head c t Hc) as [t' E'].
    destruct (rev (rstrip (c :: t))) as [| d u] eqn:R.
    + rewrite E' in R. apply (f_equal (@rev N)) in R.
      rewrite rev_involutive in R. discriminate R.
    + exists c, t', d, u. repeat split; try assumption.
      apply (rstrip_last (c :: t) d u R).
Qed.

Lemma strip_idempotent (s : str) : strip (strip s) = strip s.
Proof.
  destruct (strip_ends s) as [E | [c [t [d [u [E [R [Hc Hd]]]]]]]].
  - rewrite E. reflexivity.
  - unfold strip at 1. rewrite E, (lstrip_fixed c t Hc), <- E.
    apply (rstrip_fixed _ d u R Hd).
Qed.

(** Trimming removes a run of white space at each end and nothing else. *)
Lemma strip_split (s : str) :
  exists l r,
    s = l ++ strip s ++ r
    /\ Forall (fun c => Unicode.isspace c = true) l
    /\ Forall (fun c => Unicode.isspace c = true) r.
Proof.
  destruct (lstrip_split s) as [l [El Fl]].
  destruct (rstrip_split (lstrip s)) as [r [Er Fr]].
  exists l, r. unfold strip. rewrite <- Er. auto.
Qed.

Lemma visible_whitespace (l : str) :
  Forall (fun c => Unicode.isspace c = true) l -> visible l = [].
Proof.
  induction 1 as [| c r Hc _ IH]; simpl; [reflexivity |].
  rewrite Hc. exact IH.
Qed.

Lemma visible_strip (s : str) : visible (strip s) = visible s.
Proof.
  destruct (strip_split s) as [l [r [E [Fl Fr]]]].
  rewrite E at 2. unfold visible in *. rewrite !filter_app.
  fold (visible l). fold (visible r).
  rewrite (visible_whitespace l Fl), (visible_whitespace r Fr), app_nil_r.
  reflexivity.
Qed.

Lemma len_visible_strip (s : str) :
  (len (visible s) <= len (strip s) <= len s)%nat.
Proof.
  split.
  - rewrite <- visible_strip. unfold len, visible. apply filter_length_le.
  - destruct (strip_split s) as [l [r [E _]]].
    rewrite E at 2. rewrite !len_app. lia.
Qed.

Lemma lstrip_app (a b : str) :
  lstrip (a ++ b) = match lstrip a with [] => lstrip b | _ :: _ => lstrip a ++ b end.
Proof.
  induction a as [| c r IH]; simpl; [reflexivity |].
  destruct (Unicode.isspace c); [exact IH | reflexivity].
Qed.

Lemma rstrip_app_whitespace (s r : str) :
  Forall (fun c => Unicode.isspace c = true) r -> rstrip (s ++ r) = rstrip s.
Proof.
  intros F. unfold rstrip. rewrite rev_app_distr, lstrip_app.
  apply Forall_rev in F. rewrite (lstrip_whitespace _ F). reflexivity.
Qed.

(** White space around a text does not change what trimming gives. *)
Lemma strip_padding (l s r : str) :
  Forall (fun c => Unicode.isspace c = true) l ->
  Forall (fun c => Unicode.isspace c = true) r ->
  strip (l ++ s ++ r) = strip s.
Proof.
  intros Fl Fr. unfold strip.
  rewrite lstrip_app, (lstrip_whitespace l Fl), lstrip_app.
  destruct (lstrip s) as [| c t] eqn:E.
  - rewrite (lstrip_whitespace r Fr). reflexivity.
  - apply (rstrip_app_whitespace (c :: t) r Fr).
Qed.


(** ** Encoding *)

Lemma utf8_encodable_app (a b : str) :
  utf8_encodable (a ++ b) = utf8_encodable a && utf8_encodable b.
Proof. unfold utf8_encodable. apply forallb_app. Qed.

Lemma whitespace_below_surrogates :
  forallb (fun r => (snd r <? 55296)%N) Unicode.whitespace_ranges = true.
Proof. reflexivity. Qed.

(** No white space code point is a surrogate. *)
Lemma isspace_not_surrogate (c : N) :
  Unicode.isspace c = true -> surrogate c = false.
Proof.
  unfold Unicode.isspace, Unicode.in_ranges, surrogate. intros H.
  apply existsb_exists in H as [r [Hin Hr]].
  pose proof (proj1 (forallb_forall _ _) whitespace_below_surrogates r Hin) as Hb.
  apply andb_prop in Hr as [_ Hr]. apply N.leb_le in Hr. apply N.ltb_lt in Hb.
  apply andb_false_iff. left. apply N.leb_gt. lia.
Qed.

Lemma utf8_encodable_whitespace (l : str) :
  Forall (fun c => Unicode.isspace c = true) l -> utf8_encodable l = true.
Proof.
  induction 1 as [| c r Hc _ IH]; simpl; [reflexivity |].
  rewrite (isspace_not_surrogate c Hc). exact IH.
Qed.

(** Trimming neither removes nor keeps a surrogate the text did not have:
    a text can be encoded exactly when its trimmed form can. *)
Lemma utf8_encodable_strip (s : str) :
  utf8_encodable (strip s) = utf8_encodable s.
Proof.
  destruct (strip_split s) as [l [r [E [Fl Fr]]]].
  rewrite E at 2. rewrite !utf8_encodable_app.
  rewrite (utf8_encodable_whitespace l Fl), (utf8_encodable_whitespace r Fr).
  rewrite andb_true_r. reflexivity.
Qed.

(** ** The lowercase table *)

Lemma lowercase_ranges_clear : forallb range_clear Unicode.lowercase_ranges = true.
Proof. vm_compute. reflexivity. Qed.

Lemma to_lower_plain (c d : N) :
  Unicode.to_lower c = d -> plain_small_letter d = true -> fold_case c = d.
Proof.
  unfold Unicode.to_lower, plain_small_letter, fold_case.
  intros Hd Hp.
  apply andb_prop in Hp as [Hp Hk]. apply andb_prop in Hp as [Hlo Hhi].
  apply N.leb_le in Hlo, Hhi. apply negb_true_iff, N.eqb_neq in Hk.
  destruct (find (Unicode.covers c) Unicode.lowercase_ranges)
    as [[[[first last] step] target] |] eqn:Hfind.
  - apply find_some in Hfind as [Hin Hcov].
    pose proof (proj1 (forallb_forall _ _) lowercase_ranges_clear _ Hin) as Hok.
    simpl in Hcov, Hok.
    apply andb_prop in Hcov as [Hcov _]. apply andb_prop in Hcov as [Hf Hl].
    apply N.leb_le in Hf, Hl.
    apply orb_prop in Hok as [Hok | Hok];
      [apply orb_prop in Hok as [Hok | Hok];
       [apply orb_prop in Hok as [Hok | Hok] |] |].
    + apply andb_prop in Hok as [Hok Ht]. apply andb_prop in Hok as [Hok _].
      apply andb_prop in Hok as [Ha Hz].
      apply N.eqb_eq in Ha, Hz, Ht. subst first last target.
      destruct ((65 <=? c) && (c <=? 90))%N eqn:Hc; [lia |].
      apply andb_false_iff in Hc as [Hc | Hc]; apply N.leb_gt in Hc; lia.
    + apply N.ltb_lt in Hok. lia.
    + apply N.ltb_lt in Hok. lia.
    + apply andb_prop in Hok as [Hfl Ht]. apply N.eqb_eq in Hfl, Ht. lia.
  - subst d.
    destruct ((65 <=? c) && (c <=? 90))%N eqn:Hc; [| reflexivity].
    apply andb_prop in Hc as [_ Hc]. apply N.leb_le in Hc. lia.
Qed.

Lemma below_enumerated (P : N -> bool) (n : nat) :
  forallb P (map N.of_nat (seq 0 n)) = true ->
  forall c, (c < N.of_nat n)%N -> P c = true.
Proof.
  intros H c Hc.
  apply (proj1 (forallb_forall _ _) H).
  apply in_map_iff. exists (N.to_nat c). split; [apply N2Nat.id |].
  apply in_seq. lia.
Qed.

Lemma lower_ucs4_ascii (before after : str) (c : N) :
  (c < 128)%N -> lower_ucs4 before c after = [fold_case c].
Proof.
  intros Hc.
  assert (Hcheck : lowers_by_folding c = true).
  { apply (below_enumerated lowers_by_folding 128); [vm_compute; reflexivity | exact Hc]. }
  apply str_eqb_eq in Hcheck.
  unfold lower_ucs4.
  destruct (N.eqb_spec c 931) as [-> | _]; [lia | exact Hcheck].
Qed.

Lemma lower_ucs4_plain (before after : str) (c : N) :
  Forall (fun d => plain_small_letter d = true) (lower_ucs4 before c after) ->
  lower_ucs4 before c after = [fold_case c].
Proof.
  unfold lower_ucs4, Unicode.to_lower_full.
  destruct (N.eqb_spec c 931) as [_ | _].
  - intros H. inversion_clear H as [| ? ? Hd _].
    destruct (final_sigma before after); discriminate Hd.
  - destruct (N.eqb_spec c 304) as [_ | _].
    + intros H. inversion_clear H as [| ? ? _ H']. inversion_clear H' as [| ? ? Hd _].
      discriminate Hd.
    + intros H. inversion_clear H as [| ? ? Hd _].
      f_equal. symmetry. apply (to_lower_plain c _ eq_refl Hd).
Qed.

Lemma do_lower_plain (rest before : str) :
  Forall (fun d => plain_small_letter d = true) (do_lower before rest) ->
  do_lower before rest = map fold_case rest.
Proof.
  revert before. induction rest as [| c after IH]; intros before H; simpl in *.
  - reflexivity.
  - apply Forall_app in H as [Hc Hrest].
    rewrite (lower_ucs4_plain _ _ _ Hc). simpl. f_equal. apply IH, Hrest.
Qed.

Lemma plain_small_letter_source (c : N) :
  plain_small_letter (fold_case c) = true -> (c < 128)%N.
Proof.
  unfold plain_small_letter, fold_case.
  destruct ((65 <=? c) && (c <=? 90))%N eqn:Hc; intros H.
  - apply andb_prop in Hc as [_ Hc]. apply N.leb_le in Hc. lia.
  - apply andb_prop in H as [H _]. apply andb_prop in H as [_ H].
    apply N.leb_le in H. lia.
Qed.

Lemma do_lower_fold (rest before : str) :
  Forall (fun d => plain_small_letter d = true) (map fold_case rest) ->
  do_lower before rest = map fold_case rest.
Proof.
  revert before. induction rest as [| c after IH]; intros before H; simpl in *.
  - reflexivity.
  - inversion_clear H as [| ? ? Hc Hrest].
    rewrite (lower_ucs4_ascii _ _ _ (plain_small_letter_source c Hc)).
    simpl. f_equal. apply IH, Hrest.
Qed.

(** [s.lower() == t] is case-insensitive equality with [t] whenever [t] is
    made of plain small letters. *)
Lemma lower_eq_caseless (s t : str) :
  forallb plain_small_letter t = true ->
  lower s = t <-> caseless_eq s t.
Proof.
  intros Ht.
  assert (HF : Forall (fun d => plain_small_letter d = true) t).
  { apply Forall_forall. apply forallb_forall. exact Ht. }
  assert (Hfold : map fold_case t = t).
  { clear Ht. induction HF as [| d r Hd _ IH]; simpl; [reflexivity |].
    rewrite IH. f_equal. unfold fold_case, plain_small_letter in *.
    destruct ((65 <=? d) && (d <=? 90))%N eqn:Hc; [| reflexivity].
    apply andb_prop in Hc as [_ Hc]. apply N.leb_le in Hc.
    apply andb_prop in Hd as [Hd _]. apply andb_prop in Hd as [Hd _].
    apply N.leb_le in Hd. lia. }
  unfold caseless_eq, lower. rewrite Hfold. split; intros H.
  - pose proof (do_lower_plain s []) as E. rewrite H in E.
    symmetry. apply E, HF.
  - pose proof (do_lower_fold s []) as E. rewrite H in E.
    apply E, HF.
Qed.

(** * POST /api/explain *)

Lemma lit_beginner_plain : forallb plain_small_letter (lit "beginner") = true.
Proof. reflexivity. Qed.

(** The guard of [explain] is exactly the test on the trimmed length. *)
Lemma explain_guard (q : str) :
  negb (str_bool q) || (len (strip q) <? 3)%nat = true <-> (len (strip q) < 3)%nat.
Proof.
  split.
  - intros H. apply orb_prop in H as [H | H].
    + destruct q; [simpl; lia | discriminate H].
    + apply Nat.ltb_lt, H.
  - intros H. apply orb_true_iff. right. apply Nat.ltb_lt, H.
Qed.

(** The style label chosen for a request mode, and its lowercase form. *)
Lemma explain_style (m : str) :
  (str_eqb (lower m) (lit "beginner") = true /\ caseless_eq m (lit "beginner"))
  \/ (str_eqb (lower m) (lit "beginner") = false /\ ~ caseless_eq m (lit "beginner")).
Proof.
  destruct (str_eqb (lower m) (lit "beginner")) eqn:E.
  - left. split; [reflexivity |].
    apply (lower_eq_caseless m _ lit_beginner_plain), str_eqb_eq, E.
  - right. split; [reflexivity |]. intros H.
    apply (lower_eq_caseless m _ lit_beginner_plain), str_eqb_eq in H.
    congruence.
Qed.

Example explain_hi :
  post_explain {| ExplainRequest.body_query := lit "hi";
                  ExplainRequest.body_mode := None |}
  = Raise {| status_code := 400; detail := lit "Query is too short" |}.
Proof. reflexivity. Qed.

Example explain_padded :
  http_status
    (post_explain {| ExplainRequest.body_query := lit "  a b  ";
                     ExplainRequest.body_mode := Some (lit "BEGINNER") |})
  = 200%Z.
Proof. reflexivity. Qed.

(** C1. A request whose trimmed query is shorter than 3 code points (an
    empty or all-white-space query included) is refused: the handler raises
    [HTTPException] with status 400 and detail [Query is too short], and
    returns no response. *)
Theorem explain_short_query (b : ExplainRequest.body) :
  (len (strip (ExplainRequest.body_query b)) < 3)%nat
  \/ Forall (fun c => Unicode.isspace c = true) (ExplainRequest.body_query b) ->
  post_explain b
  = Raise {| status_code := 400; detail := lit "Query is too short" |}
  /\ http_status (post_explain b) = 400%Z
  /\ forall resp, post_explain b <> Return resp.
Proof.
  intros H.
  assert (Hlen : (len (strip (ExplainRequest.body_query b)) < 3)%nat).
  { destruct H as [H | H]; [exact H |]. rewrite (strip_whitespace _ H). simpl. lia. }
  assert (E : post_explain b
              = Raise {| status_code := 400; detail := lit "Query is too short" |}).
  { unfold post_explain, explain. simpl ExplainRequest.query.
    rewrite (proj2 (explain_guard _) Hlen). reflexivity. }
  rewrite E. repeat split. intros resp. discriminate.
Qed.

Lemma explain_short_query_witness :
  post_explain {| ExplainRequest.body_query := [32; 9; 160]%N;
                  ExplainRequest.body_mode := Some (lit "beginner") |}
  = Raise {| status_code := 400; detail := lit "Query is too short" |}.
Proof.
  apply (explain_short_query
           {| ExplainRequest.body_query := [32; 9; 160]%N;
              ExplainRequest.body_mode := Some (lit "beginner") |}).
  left. vm_compute. lia.
Defined.

Lemma summary_encodable (style q tail : str) :
  utf8_encodable style = true ->
  utf8_encodable tail = true ->
  utf8_encodable (style ++ lit " view: " ++ strip q ++ tail) = utf8_encodable q.
Proof.
  intros Hs Ht.
  rewrite (utf8_encodable_app style), (utf8_encodable_app (lit " view: ")),
    (utf8_encodable_app (strip q)), utf8_encodable_strip, Hs, Ht.
  destruct (utf8_encodable q); reflexivity.
Qed.

(** A returned response can be encoded exactly when the query can: the
    summary copies the trimmed query, everything else is fixed. *)
Lemma explain_returned_encodable (req : ExplainRequest.t)
  (resp : ExplainResponse.t) :
  explain req = Return resp ->
  ExplainResponse.encodable resp = utf8_encodable (ExplainRequest.query req).
Proof.
  unfold explain.
  destruct (negb (str_bool (ExplainRequest.query req))
            || (len (strip (ExplainRequest.query req)) <? 3)%nat);
    [discriminate |].
  intros H. injection H as <-.
  unfold ExplainResponse.encodable.
  cbn [ExplainResponse.mode ExplainResponse.summary ExplainResponse.key_points
       ExplainResponse.confidence ExplainResponse.sources].
  match goal with
  | |- context [utf8_encodable (?style ++ ?rest)] =>
      change (style ++ rest)
        with (style ++ lit " view: " ++ strip (ExplainRequest.query req)
              ++ lit " likely driven by liquidity rotation, macro risk appetite, and exchange flow dynamics.")
  end.
  destruct (str_eqb (lower (ExplainRequest.mode req)) (lit "beginner"));
    rewrite summary_encodable by reflexivity;
    destruct (utf8_encodable (ExplainRequest.query req)); reflexivity.
Qed.

(** C2, counterexample. A query of four code points whose first is a lone
    surrogate passes the length test, but the response, whose summary
    copies it, cannot be encoded: the route answers 500, not 200. *)
Lemma explain_surrogate_query :
  (3 <= len (strip (ExplainRequest.body_query surrogate_query)))%nat
  /\ http_status (post_explain surrogate_query) = 500%Z
  /\ http_status (post_explain surrogate_query) <> 200%Z.
Proof.
  split; [vm_compute; lia |]. split; [reflexivity |].
  vm_compute. discriminate.
Qed.

(** C2, amended. A request whose trimmed query has at least 3 code points
    gets a response with confidence 0.72, four key points and three
    sources, whatever the query and the mode; the route answers 200 when
    the query holds no surrogate code point and 500 when it holds one. *)
Theorem explain_success (b : ExplainRequest.body) :
  (3 <= len (strip (ExplainRequest.body_query b)))%nat ->
  exists resp,
    post_explain b = Return resp
    /\ ExplainResponse.confidence resp = 0.72%float
    /\ List.length (ExplainResponse.key_points resp) = 4%nat
    /\ List.length (ExplainResponse.sources resp) = 3%nat
    /\ (utf8_encodable (ExplainRequest.body_query b) = true ->
        http_status (post_explain b) = 200%Z)
    /\ (utf8_encodable (ExplainRequest.body_query b) = false ->
        http_status (post_explain b) = 500%Z).
Proof.
  intros H.
  destruct (post_explain b) as [resp | e] eqn:E.
  - pose proof (explain_returned_encodable _ _ E) as Henc.
    simpl ExplainRequest.query in Henc.
    exists resp. split; [reflexivity |].
    unfold post_explain, explain in E. simpl ExplainRequest.query in E.
    destruct (negb (str_bool (ExplainRequest.body_query b))
              || (len (strip (ExplainRequest.body_query b)) <? 3)%nat);
      [discriminate E |].
    injection E as <-. cbn [http_status]. rewrite Henc.
    repeat split; intros ->; reflexivity.
  - unfold post_explain, explain in E. simpl ExplainRequest.query in E.
    destruct (negb (str_bool (ExplainRequest.body_query b))
              || (len (strip (ExplainRequest.body_query b)) <? 3)%nat) eqn:G;
      [| discriminate E].
    apply explain_guard in G. lia.
Qed.

Lemma explain_success_witness :
  exists resp,
    post_explain {| ExplainRequest.body_query := lit "BTC dip";
                    ExplainRequest.body_mode := None |} = Return resp
    /\ ExplainResponse.confidence resp = 0.72%float.
Proof.
  destruct (explain_success
              {| ExplainRequest.body_query := lit "BTC dip";
                 ExplainRequest.body_mode := None |}) as [resp [E [C _]]].
  - vm_compute. lia.
  - exists resp. split; [exact E | exact C].
Defined.

(** What a returned response is made of. *)
Lemma explain_returned (req : ExplainRequest.t) (resp : ExplainResponse.t) :
  explain req = Return resp ->
  exists style,
    ((style = lit "Beginner" /\ caseless_eq (ExplainRequest.mode req) (lit "beginner"))
     \/ (style = lit "Expert" /\ ~ caseless_eq (ExplainRequest.mode req) (lit "beginner")))
    /\ ExplainResponse.mode resp = lower style
    /\ ExplainResponse.summary resp
       = style ++ lit " view: " ++ strip (ExplainRequest.query req)
         ++ lit " likely driven by liquidity rotation, macro risk appetite, and exchange flow dynamics.".
Proof.
  unfold explain.
  destruct (negb (str_bool (ExplainRequest.query req))
            || (len (strip (ExplainRequest.query req)) <? 3)%nat);
    [discriminate |].
  intros H. injection H as <-. simpl.
  destruct (explain_style (ExplainRequest.mode req)) as [[E C] | [E C]];
    rewrite E; eexists; (split; [| split; reflexivity]); auto.
Qed.

(** A capital I with dot above (U+0130) lowercases to two code points, so
    a mode spelt with it is not [beginner]. *)
Example lower_dotted_capital_i :
  lower [66; 69; 71; 304; 78; 78; 69; 82]%N
  = [98; 101; 103; 105; 775; 110; 110; 101; 114]%N
  /\ ~ caseless_eq [66; 69; 71; 304; 78; 78; 69; 82]%N (lit "beginner").
Proof. split; [reflexivity | vm_compute; discriminate]. Qed.

(** C3. In a returned response, [mode] is [beginner] exactly when the
    request carries a mode equal to [beginner] case-insensitively; for every
    other mode, and when the mode is left out (it then defaults to
    [expert]), it is [expert]. *)
Theorem explain_mode (b : ExplainRequest.body) (resp : ExplainResponse.t) :
  post_explain b = Return resp ->
  (ExplainResponse.mode resp = lit "beginner" <->
   exists m, ExplainRequest.body_mode b = Some m /\ caseless_eq m (lit "beginner"))
  /\ ((forall m, ExplainRequest.body_mode b = Some m ->
                 ~ caseless_eq m (lit "beginner")) ->
      ExplainResponse.mode resp = lit "expert")
  /\ (ExplainRequest.body_mode b = None ->
      ExplainResponse.mode resp = lit "expert").
Proof.
  intros H. unfold post_explain in H.
  apply explain_returned in H as [style [Hstyle [Hmode _]]].
  assert (Hdefault : ~ caseless_eq (lit "expert") (lit "beginner")).
  { vm_compute. discriminate. }
  assert (Hcases :
            (ExplainResponse.mode resp = lit "beginner"
             /\ caseless_eq (ExplainRequest.mode (ExplainRequest.validate b))
                  (lit "beginner"))
            \/ (ExplainResponse.mode resp = lit "expert"
                /\ ~ caseless_eq (ExplainRequest.mode (ExplainRequest.validate b))
                       (lit "beginner"))).
  { destruct Hstyle as [[-> C] | [-> C]]; [left | right]; (split; [exact Hmode | exact C]). }
  clear Hstyle Hmode style.
  unfold ExplainRequest.validate in Hcases. simpl in Hcases.
  destruct (ExplainRequest.body_mode b) as [m |].
  - destruct Hcases as [[Hm C] | [Hm C]]; rewrite Hm.
    + split; [| split].
      * split; [intros _; exists m; auto | reflexivity].
      * intros Hno. destruct (Hno m eq_refl C).
      * discriminate.
    + split; [| split].
      * split; [discriminate |]. intros [m' [Hm' C']]. injection Hm' as ->.
        destruct (C C').
      * reflexivity.
      * reflexivity.
  - destruct Hcases as [[_ C] | [Hm _]]; [destruct (Hdefault C) |].
    rewrite Hm. split; [| split].
    + split; [discriminate |]. intros [m' [Hm' _]]. discriminate Hm'.
    + reflexivity.
    + reflexivity.
Qed.

Lemma explain_mode_witness :
  exists resp,
    post_explain {| ExplainRequest.body_query := lit " BTC dip ";
                    ExplainRequest.body_mode := Some (lit "BeGinNER") |}
    = Return resp
    /\ (ExplainResponse.mode resp = lit "beginner" <->
        exists m, Some (lit "BeGinNER") = Some m /\ caseless_eq m (lit "beginner")).
Proof.
  eexists. split; [reflexivity |].
  apply (explain_mode
           {| ExplainRequest.body_query := lit " BTC dip ";
              ExplainRequest.body_mode := Some (lit "BeGinNER") |}).
  reflexivity.
Defined.

(** C4. The summary of a returned response is the fixed sentence with the
    style label ([Beginner] or [Expert], the capitalised response mode) and
    the trimmed query put in; for the query [BTC dip] in mode [beginner] it
    starts with [Beginner view: BTC dip likely driven by]. *)
Theorem explain_summary (b : ExplainRequest.body) (resp : ExplainResponse.t) :
  post_explain b = Return resp ->
  (exists style,
      ((style = lit "Beginner" /\ ExplainResponse.mode resp = lit "beginner")
       \/ (style = lit "Expert" /\ ExplainResponse.mode resp = lit "expert"))
      /\ ExplainResponse.summary resp
         = style ++ lit " view: " ++ strip (ExplainRequest.body_query b)
           ++ lit " likely driven by liquidity rotation, macro risk appetite, and exchange flow dynamics.")
  /\ (ExplainRequest.body_query b = lit "BTC dip" ->
      ExplainRequest.body_mode b = Some (lit "beginner") ->
      exists rest,
        ExplainResponse.summary resp
        = lit "Beginner view: BTC dip likely driven by" ++ rest).
Proof.
  intros H. unfold post_explain in H.
  apply explain_returned in H as [style [Hstyle [Hmode Hsum]]].
  simpl in Hsum. split.
  - exists style. split; [| exact Hsum].
    destruct Hstyle as [[-> _] | [-> _]]; [left | right];
      (split; [reflexivity | exact Hmode]).
  - intros Hq Hm. rewrite Hsum, Hq.
    unfold ExplainRequest.validate in Hstyle. rewrite Hm in Hstyle.
    destruct Hstyle as [[-> _] | [_ C]].
    + eexists. reflexivity.
    + destruct C. reflexivity.
Qed.

Lemma explain_summary_witness :
  exists resp rest,
    post_explain {| ExplainRequest.body_query := lit "BTC dip";
                    ExplainRequest.body_mode := Some (lit "beginner") |}
    = Return resp
    /\ ExplainResponse.summary resp
       = lit "Beginner view: BTC dip likely driven by" ++ rest.
Proof.
  eexists.
  destruct (explain_summary
              {| ExplainRequest.body_query := lit "BTC dip";
                 ExplainRequest.body_mode := Some (lit "beginner") |}
              _ eq_refl) as [_ Hstart].
  destruct (Hstart eq_refl eq_refl) as [rest Hrest].
  exists rest. split; [reflexivity | exact Hrest].
Defined.

(** * GET /test *)

Ltac fault_cases :=
  first [ reflexivity
        | match goal with
          | e : exn |- _ => destruct e as [[| |] [? | ?]]
          end ].

(** The handler computes what [described] says: it returns the response
    built around the description, or lets the same exception escape. *)
Lemma test_database_whole (database : database_import) (getenv : environ) :
  test_database database getenv
  = match described (probe_end_of database) with
    | Return text => Return (response_with text (probe_end_of database) getenv)
    | Raise e => Raise e
    end.
Proof.
  unfold test_database, probe, probe_end_of, response_with, set_text.
  destruct database as [[[has_name db_name listing] |] | e];
    cbn [hasattr_name name list_collection_names].
  - destruct has_name as [[|] | e].
    + destruct db_name as [v | e].
      * destruct listing as [names | e]; fault_cases; fault_cases; fault_cases.
      * fault_cases; fault_cases; fault_cases.
    + destruct listing as [names | e]; fault_cases; fault_cases; fault_cases.
    + fault_cases; fault_cases; fault_cases.
  - reflexivity.
  - fault_cases; fault_cases; fault_cases.
Qed.

Lemma test_database_returned (database : database_import) (getenv : environ)
  (response : dict) :
  test_database database getenv = Return response ->
  exists text,
    described (probe_end_of database) = Return text
    /\ response = response_with text (probe_end_of database) getenv.
Proof.
  rewrite test_database_whole.
  destruct (described (probe_end_of database)) as [text | e]; [| discriminate].
  intros H. injection H as <-. exists text. split; reflexivity.
Qed.

Lemma outer_words_ordinary (e : exn) :
  ordinary e -> exists text, outer_words e = Return text.
Proof.
  intros [Hi [text Hs]]. unfold outer_words. rewrite Hi, Hs.
  destruct (isinstance e ImportError); eexists; reflexivity.
Qed.

Lemma described_ordinary (o : probe_end) :
  ordinary_end o -> exists text, described o = Return text.
Proof.
  destruct o as [e | | e | e | names]; simpl; intros H;
    try (apply outer_words_ordinary; exact H);
    try (eexists; reflexivity).
  destruct H as [Hi [text Hs]]. rewrite Hi, Hs. eexists. reflexivity.
Qed.

(** With no fault, or an ordinary one, the handler returns. *)
Lemma test_database_returns (database : database_import) (getenv : environ) :
  ordinary_end (probe_end_of database) ->
  exists response, test_database database getenv = Return response.
Proof.
  intros H. destruct (described_ordinary _ H) as [text E].
  rewrite test_database_whole, E. eexists. reflexivity.
Qed.

Lemma forallb_encodable_PStr (l : list str) :
  forallb encodable (map PStr l) = forallb utf8_encodable l.
Proof.
  induction l as [| a l IH]; simpl; [reflexivity |]. rewrite IH. reflexivity.
Qed.

(** A response can be encoded exactly when the description and the
    reported names can: the other fields hold fixed texts. *)
Lemma response_with_encodable (text : str) (o : probe_end) (getenv : environ) :
  payload_encodable (response_with text o getenv)
  = utf8_encodable text && forallb utf8_encodable (reported_collections o).
Proof.
  unfold payload_encodable, response_with, set_text.
  cbn [forallb snd encodable]. rewrite forallb_encodable_PStr.
  destruct (getenv_bool (getenv "DATABASE_URL"%string)),
    (getenv_bool (getenv "DATABASE_NAME"%string)), (reached_listing o),
    (utf8_encodable text), (forallb utf8_encodable (reported_collections o));
    reflexivity.
Qed.

Lemma outer_words_head (e : exn) (text : str) :
  outer_words e = Return text ->
  (exists rest, text = 10060%N :: rest) /\ (len text <= 59)%nat.
Proof.
  unfold outer_words.
  destruct (isinstance e ImportError).
  - intros H. injection H as <-. split; [eexists; reflexivity | simpl; lia].
  - destruct (isinstance e Exception); [| discriminate].
    destruct (str_of e) as [t | e']; [| discriminate].
    pose proof (firstn_le_length 50 t) as L. revert L.
    generalize (firstn 50 t). intros l L H. injection H as <-.
    split; [eexists; reflexivity |]. unfold len. simpl. lia.
Qed.

(** The description has at most 75 code points. *)
Lemma described_bound (o : probe_end) (text : str) :
  described o = Return text -> (len text <= 75)%nat.
Proof.
  destruct o as [e | | e | e | names]; cbn [described].
  - intros H. destruct (outer_words_head e text H) as [_ L]. lia.
  - intros H. injection H as <-. simpl. lia.
  - intros H. destruct (outer_words_head e text H) as [_ L]. lia.
  - destruct (isinstance e Exception).
    + destruct (str_of e) as [t | e'].
      * pose proof (firstn_le_length 50 t) as L. revert L.
        generalize (firstn 50 t). intros l L H. injection H as <-.
        unfold len. simpl. lia.
      * intros H. destruct (outer_words_head e' text H) as [_ L]. lia.
    + intros H. destruct (outer_words_head e text H) as [_ L]. lia.
  - intros H. injection H as <-. simpl. lia.
Qed.

(** The description reads [Connected & Working] only when the listing
    succeeded: every other description starts with the cross mark or the
    warning sign. *)
Lemma described_working (o : probe_end) :
  described o = Return (check_mark ++ lit " Connected & Working")
  <-> exists names, o = Listed names.
Proof.
  split.
  - assert (Houter : forall e,
              outer_words e = Return (check_mark ++ lit " Connected & Working")
              -> False).
    { intros e H. destruct (outer_words_head e _ H) as [[rest Hr] _].
      discriminate Hr. }
    destruct o as [e | | e | e | names]; simpl; intros H.
    + destruct (Houter e H).
    + discriminate H.
    + destruct (Houter e H).
    + destruct (isinstance e Exception); [| destruct (Houter e H)].
      destruct (str_of e) as [t | e']; [discriminate H | destruct (Houter e' H)].
    + exists names. reflexivity.
  - intros [names ->]. reflexivity.
Qed.

Example test_database_listing_fails :
  test_database
    (Return (Some {| hasattr_name := Return false;
                     name := Raise {| class_of := Exception;
                                      str_of := Return (lit "no attribute") |};
                     list_collection_names :=
                       Raise {| class_of := ImportError;
                                str_of := Return (lit "timed out") |} |}))
    (fun _ => None)
  = Return
      [ ("backend"%string, PStr (check_mark ++ lit " Running"));
        ("database"%string,
         PStr (warning_sign ++ lit "  Connected but Error: timed out"));
        ("database_url"%string, PStr (cross_mark ++ lit " Not Set"));
        ("database_name"%string, PStr (cross_mark ++ lit " Not Set"));
        ("connection_status"%string, PStr (lit "Connected"));
        ("collections"%string, PList []) ].
Proof. reflexivity. Qed.

(** When taking the text of a listing fault itself raises, the new fault
    reaches the outer clauses; one outside [Exception] escapes them. *)
Example test_database_text_raises :
  test_database
    (Return (Some {| hasattr_name := Return false;
                     name := Return PNone;
                     list_collection_names :=
                       Raise {| class_of := Exception;
                                str_of :=
                                  Raise {| class_of := BaseException;
                                           str_of := Return [] |} |} |}))
    (fun _ => None)
  = Raise {| class_of := BaseException; str_of := Return [] |}.
Proof. reflexivity. Qed.

(** A fault text holding a surrogate is stored, but the payload cannot be
    encoded. *)
Example test_database_surrogate_text :
  server_status
    (test_database
       (Raise {| class_of := Exception; str_of := Return [56575%N] |})
       (fun _ => None))
  = 500%Z.
Proof. reflexivity. Qed.

(** C5, counterexample. A listing interrupted by an exception outside
    [Exception] is caught by neither [try]: the handler raises, no payload
    is returned and the route answers 500. *)
Lemma test_database_interrupted :
  test_database interrupted_listing (fun _ => None)
  = Raise {| class_of := BaseException; str_of := Return [] |}
  /\ server_status (test_database interrupted_listing (fun _ => None)) = 500%Z
  /\ forall response,
       test_database interrupted_listing (fun _ => None) <> Return response.
Proof.
  split; [reflexivity |]. split; [reflexivity |].
  intros response H. vm_compute in H. discriminate H.
Qed.

(** C5, amended. When the probe ends without a fault (the listing
    succeeds, or [db] is [None]) or with an ordinary one (the import, the
    attribute access or the listing raises an instance of [Exception] whose
    text can be taken), the handler returns, and the [database] field of
    the payload describes how the probe ended; the route then answers 200
    exactly when the description and the reported collection names can be
    encoded as UTF-8. A fault outside [Exception] is caught by neither
    clause: the handler raises it and the route answers 500. *)
Theorem test_database_never_fails (database : database_import) (getenv : environ) :
  (ordinary_end (probe_end_of database) ->
   exists response text,
     test_database database getenv = Return response
     /\ described (probe_end_of database) = Return text
     /\ dict_get "database" response = Some (PStr text)
     /\ (server_status (test_database database getenv) = 200%Z
         <-> utf8_encodable text = true
             /\ forallb utf8_encodable
                  (reported_collections (probe_end_of database)) = true))
  /\ (forall e,
        ends_with (probe_end_of database) e ->
        isinstance e Exception = false ->
        test_database database getenv = Raise e
        /\ server_status (test_database database getenv) = 500%Z).
Proof.
  split.
  - intros H. destruct (described_ordinary _ H) as [text E].
    exists (response_with text (probe_end_of database) getenv), text.
    rewrite test_database_whole, E. split; [reflexivity |].
    split; [reflexivity |]. split; [reflexivity |].
    cbn [server_status]. rewrite response_with_encodable.
    destruct (utf8_encodable text),
      (forallb utf8_encodable (reported_collections (probe_end_of database)));
      simpl; split; try (intros [A B]); try discriminate; auto.
  - intros e He Hi.
    assert (Ho : outer_words e = Raise e).
    { unfold outer_words. rewrite Hi.
      destruct (isinstance e ImportError) eqn:Hm; [| reflexivity].
      apply isinstance_ImportError in Hm. congruence. }
    assert (E : described (probe_end_of database) = Raise e).
    { destruct He as [-> | [-> | ->]]; cbn [described]; try exact Ho.
      rewrite Hi. exact Ho. }
    rewrite test_database_whole, E. split; reflexivity.
Qed.

Lemma test_database_never_fails_witness :
  exists response,
    test_database
      (Raise {| class_of := ImportError;
                str_of := Return (lit "No module named 'database'") |})
      (fun _ => None)
    = Return response
    /\ dict_get "database" response
       = Some (PStr (cross_mark
                     ++ lit " Database module not found (run enable-database first)")).
Proof.
  destruct (proj1 (test_database_never_fails
                     (Raise {| class_of := ImportError;
                               str_of := Return (lit "No module named 'database'") |})
                     (fun _ => None))) as [response [text [E [D [G _]]]]].
  - split; [reflexivity | eexists; reflexivity].
  - exists response. split; [exact E |].
    injection D as <-. exact G.
Defined.

(** C8. The [collections] field holds at most 10 names: the first 10 of
    those the listing returned when it succeeded, none in every other
    case. This holds of every response the handler returns, and it returns
    one whenever the probe ends without a fault or with an ordinary one. *)
Theorem test_database_collections (database : database_import) (getenv : environ) :
  (ordinary_end (probe_end_of database) ->
   exists response, test_database database getenv = Return response)
  /\ forall response,
       test_database database getenv = Return response ->
       exists names,
         dict_get "collections" response = Some (PList (map PStr names))
         /\ (List.length names <= 10)%nat
         /\ (forall listed, probe_end_of database = Listed listed ->
                            names = firstn 10 listed)
         /\ ((forall listed, probe_end_of database <> Listed listed) ->
             names = []).
Proof.
  split; [apply test_database_returns |].
  intros response H.
  apply test_database_returned in H as [text [_ ->]].
  exists (reported_collections (probe_end_of database)).
  split; [reflexivity |].
  destruct (probe_end_of database) as [e | | e | e | listed];
    unfold reported_collections.
  1-4: split; [apply Nat.le_0_l |];
       split; [intros l Hl; discriminate Hl | intros _; reflexivity].
  split; [apply firstn_le_length | split].
  - intros l Hl. injection Hl as ->. reflexivity.
  - intros H. destruct (H listed eq_refl).
Qed.

(** C9, counterexample. With [DATABASE_URL] set to the empty text the
    variable is present, yet the response reads [Not Set]. *)
Lemma test_database_empty_variable :
  is_set (empty_database_url "DATABASE_URL"%string) = true
  /\ exists response,
       test_database (Return None) empty_database_url = Return response
       /\ dict_get "database_url" response
          = Some (PStr (cross_mark ++ lit " Not Set"))
       /\ dict_get "database_url" response
          <> Some (set_text (is_set (empty_database_url "DATABASE_URL"%string))).
Proof.
  split; [reflexivity |].
  eexists. split; [reflexivity |]. split; [reflexivity |].
  vm_compute. discriminate.
Qed.

(** C9, amended. The final [database_url] and [database_name] fields depend
    on the environment alone, for every end of the probe: each reads
    [Set] when [os.getenv] returns a non-empty text for its variable and
    [Not Set] when the variable is missing or empty; what the probe stored
    in them before never reaches the response. This holds of every
    response the handler returns, and it returns one whenever the probe
    ends without a fault or with an ordinary one. *)
Theorem test_database_environment (database : database_import) (getenv : environ) :
  (ordinary_end (probe_end_of database) ->
   exists response, test_database database getenv = Return response)
  /\ forall response,
       test_database database getenv = Return response ->
       dict_get "database_url" response
       = Some (set_text (getenv_bool (getenv "DATABASE_URL"%string)))
       /\ dict_get "database_name" response
          = Some (set_text (getenv_bool (getenv "DATABASE_NAME"%string)))
       /\ dict_get "database_url" response
          <> Some (PStr (check_mark ++ lit " Configured"))
       /\ dict_get "database_name" response
          <> Some (PStr (check_mark ++ lit " Connected")).
Proof.
  split; [apply test_database_returns |].
  intros response H.
  apply test_database_returned in H as [text [_ ->]].
  split; [reflexivity |]. split; [reflexivity |].
  cbn [response_with dict_get String.eqb Ascii.eqb Bool.eqb]. split.
  - destruct (getenv_bool (getenv "DATABASE_URL"%string)); vm_compute; discriminate.
  - destruct (getenv_bool (getenv "DATABASE_NAME"%string)); vm_compute; discriminate.
Qed.

(** * GET /api/market/overview *)

Example isoformat_sample :
  isoformat (reading sample_clock 0) = lit "2025-11-14T09:30:05.000120".
Proof. reflexivity. Qed.

(** C6. The overview holds 3 sectors of 2 assets each and 6 heatmap points;
    [updatedAt] is the clock reading in ISO format followed by [Z], and
    nothing else in the payload depends on the clock. *)
Theorem market_overview_payload (w : clock) :
  keys (fst (market_overview w)) = [ "updatedAt"; "sectors"; "heatmap" ]%string
  /\ dict_get "updatedAt" (fst (market_overview w))
     = Some (PStr (isoformat (reading w (reads w)) ++ lit "Z"))
  /\ (exists sectors,
         dict_get "sectors" (fst (market_overview w)) = Some (PList sectors)
         /\ List.length sectors = 3%nat
         /\ Forall (fun sector =>
                      exists assets,
                        item "assets" sector = Some (PList assets)
                        /\ List.length assets = 2%nat) sectors)
  /\ (exists heatmap,
         dict_get "heatmap" (fst (market_overview w)) = Some (PList heatmap)
         /\ List.length heatmap = 6%nat)
  /\ forall w', without "updatedAt" (fst (market_overview w'))
                = without "updatedAt" (fst (market_overview w)).
Proof.
  split; [reflexivity |]. split; [reflexivity |]. split; [| split].
  - eexists. split; [reflexivity |]. split; [reflexivity |].
    repeat constructor; eexists; split; reflexivity.
  - eexists. split; reflexivity.
  - intros w'. reflexivity.
Qed.

(** * GET /api/reports *)

(** C7. The reports payload holds exactly 2 items, [weekly-crypto-outlook]
    then [macro-brief]; the [createdAt] of each is its own reading of the
    clock, in ISO format followed by [Z]. *)
Theorem list_reports_items (w : clock) :
  exists first second,
    fst (list_reports w) = [ ("items"%string, PList [first; second]) ]
    /\ item "id" first = Some (PStr (lit "weekly-crypto-outlook"))
    /\ item "id" second = Some (PStr (lit "macro-brief"))
    /\ item "createdAt" first
       = Some (PStr (isoformat (reading w (reads w)) ++ lit "Z"))
    /\ item "createdAt" second
       = Some (PStr (isoformat (reading w (S (reads w))) ++ lit "Z")).
Proof.
  eexists. eexists. split; [reflexivity |]. repeat split.
Qed.

(** * Further properties of POST /api/explain *)

(** The outcome depends on the query through its trimmed text only. *)
Lemma explain_same_trimmed (q1 q2 m : str) :
  strip q1 = strip q2 ->
  explain {| ExplainRequest.query := q1; ExplainRequest.mode := m |}
  = explain {| ExplainRequest.query := q2; ExplainRequest.mode := m |}.
Proof.
  intros E. unfold explain. simpl.
  assert (G : negb (str_bool q1) || (len (strip q1) <? 3)%nat
              = negb (str_bool q2) || (len (strip q2) <? 3)%nat).
  { apply eq_true_iff_eq. rewrite !explain_guard, E. reflexivity. }
  rewrite G, E. reflexivity.
Qed.

(** The test on the mode holds exactly for requests asking for the
    beginner style. *)
Lemma explain_asks_beginner (b : ExplainRequest.body) :
  str_eqb (lower (ExplainRequest.mode (ExplainRequest.validate b)))
    (lit "beginner") = true
  <-> asks_beginner (ExplainRequest.body_mode b).
Proof.
  unfold ExplainRequest.validate, asks_beginner. simpl.
  destruct (ExplainRequest.body_mode b) as [m |].
  - destruct (explain_style m) as [[E C] | [E C]]; rewrite E; split.
    + intros _. exists m. auto.
    + reflexivity.
    + discriminate.
    + intros [s [Hs Cs]]. injection Hs as <-. destruct (C Cs).
  - split; [vm_compute; discriminate | intros [s [Hs _]]; discriminate Hs].
Qed.

(** X1. White space added before and after the query changes nothing: the
    padded request gets the same refusal or the same response. *)
Theorem explain_ignores_padding (b : ExplainRequest.body) (l r : str) :
  Forall (fun c => Unicode.isspace c = true) l ->
  Forall (fun c => Unicode.isspace c = true) r ->
  post_explain
    {| ExplainRequest.body_query := l ++ ExplainRequest.body_query b ++ r;
       ExplainRequest.body_mode := ExplainRequest.body_mode b |}
  = post_explain b.
Proof.
  intros Fl Fr. unfold post_explain, ExplainRequest.validate. simpl.
  apply explain_same_trimmed, strip_padding; assumption.
Qed.

Lemma explain_ignores_padding_witness :
  post_explain
    {| ExplainRequest.body_query := [9; 160]%N ++ lit "ETH rally" ++ [8232; 10]%N;
       ExplainRequest.body_mode := Some (lit "Beginner") |}
  = post_explain
      {| ExplainRequest.body_query := lit "ETH rally";
         ExplainRequest.body_mode := Some (lit "Beginner") |}.
Proof.
  apply (explain_ignores_padding
           {| ExplainRequest.body_query := lit "ETH rally";
              ExplainRequest.body_mode := Some (lit "Beginner") |}
           [9; 160]%N [8232; 10]%N);
    repeat constructor.
Defined.

(** X2. The mode matters only through whether it asks for the beginner
    style: requests with the same query whose modes both ask for it, or
    both do not (any other text, or no mode at all), get the same outcome. *)
Theorem explain_mode_only_style (b1 b2 : ExplainRequest.body) :
  ExplainRequest.body_query b1 = ExplainRequest.body_query b2 ->
  (asks_beginner (ExplainRequest.body_mode b1)
   <-> asks_beginner (ExplainRequest.body_mode b2)) ->
  post_explain b1 = post_explain b2.
Proof.
  intros Hq Hm.
  assert (S : str_eqb (lower (ExplainRequest.mode (ExplainRequest.validate b1)))
                (lit "beginner")
              = str_eqb (lower (ExplainRequest.mode (ExplainRequest.validate b2)))
                  (lit "beginner")).
  { apply eq_true_iff_eq. rewrite !explain_asks_beginner. exact Hm. }
  unfold post_explain, explain.
  replace (ExplainRequest.query (ExplainRequest.validate b1))
    with (ExplainRequest.query (ExplainRequest.validate b2)) by (symmetry; exact Hq).
  rewrite S. reflexivity.
Qed.

Lemma explain_mode_only_style_witness :
  post_explain {| ExplainRequest.body_query := lit "SOL outlook";
                  ExplainRequest.body_mode := Some (lit "intermediate") |}
  = post_explain {| ExplainRequest.body_query := lit "SOL outlook";
                    ExplainRequest.body_mode := None |}.
Proof.
  apply (explain_mode_only_style
           {| ExplainRequest.body_query := lit "SOL outlook";
              ExplainRequest.body_mode := Some (lit "intermediate") |}
           {| ExplainRequest.body_query := lit "SOL outlook";
              ExplainRequest.body_mode := None |}).
  - reflexivity.
  - split; intros [s [Hs C]]; simpl in Hs.
    + injection Hs as <-. vm_compute in C. discriminate C.
    + discriminate Hs.
Defined.

(** X3. A query with at least 3 code points that are not white space is
    always accepted, wherever the white space sits: the handler returns a
    response, and the route answers 200 when the query holds no surrogate
    code point. *)
Theorem explain_accepts_visible (b : ExplainRequest.body) :
  (3 <= len (visible (ExplainRequest.body_query b)))%nat ->
  exists resp,
    post_explain b = Return resp
    /\ (utf8_encodable (ExplainRequest.body_query b) = true ->
        http_status (post_explain b) = 200%Z).
Proof.
  intros H.
  destruct (post_explain b) as [resp | e] eqn:E.
  - exists resp. split; [reflexivity |]. intros Henc. cbn [http_status].
    rewrite (explain_returned_encodable _ _ E). simpl ExplainRequest.query.
    rewrite Henc. reflexivity.
  - unfold post_explain, explain in E. simpl ExplainRequest.query in E.
    destruct (negb (str_bool (ExplainRequest.body_query b))
              || (len (strip (ExplainRequest.body_query b)) <? 3)%nat) eqn:G;
      [| discriminate E].
    apply explain_guard in G.
    pose proof (len_visible_strip (ExplainRequest.body_query b)). lia.
Qed.

Lemma explain_accepts_visible_witness :
  exists resp,
    post_explain {| ExplainRequest.body_query := lit " a b c ";
                    ExplainRequest.body_mode := None |} = Return resp.
Proof.
  destruct (explain_accepts_visible
              {| ExplainRequest.body_query := lit " a b c ";
                 ExplainRequest.body_mode := None |}) as [resp [E _]].
  - vm_compute. lia.
  - exists resp. exact E.
Defined.

(** X4. A query of fewer than 3 code points is always refused with status
    400, whatever it contains. *)
Theorem explain_refuses_short (b : ExplainRequest.body) :
  (len (ExplainRequest.body_query b) < 3)%nat ->
  post_explain b
  = Raise {| status_code := 400; detail := lit "Query is too short" |}.
Proof.
  intros H. unfold post_explain, explain. simpl ExplainRequest.query.
  pose proof (len_visible_strip (ExplainRequest.body_query b)) as [_ L].
  rewrite (proj2 (explain_guard _)); [reflexivity | lia].
Qed.

Lemma explain_refuses_short_witness :
  post_explain {| ExplainRequest.body_query := lit "hi";
                  ExplainRequest.body_mode := Some (lit "expert") |}
  = Raise {| status_code := 400; detail := lit "Query is too short" |}.
Proof.
  apply (explain_refuses_short
           {| ExplainRequest.body_query := lit "hi";
              ExplainRequest.body_mode := Some (lit "expert") |}).
  vm_compute. lia.
Defined.

(** X5. Key points, confidence and sources are the same in every response,
    and the response mode is one of [beginner] and [expert]. *)
Theorem explain_fixed_parts (b1 b2 : ExplainRequest.body)
  (r1 r2 : ExplainResponse.t) :
  post_explain b1 = Return r1 ->
  post_explain b2 = Return r2 ->
  ExplainResponse.key_points r1 = ExplainResponse.key_points r2
  /\ ExplainResponse.confidence r1 = ExplainResponse.confidence r2
  /\ ExplainResponse.sources r1 = ExplainResponse.sources r2
  /\ (ExplainResponse.mode r1 = lit "beginner"
      \/ ExplainResponse.mode r1 = lit "expert").
Proof.
  unfold post_explain, explain.
  generalize (ExplainRequest.validate b1) (ExplainRequest.validate b2).
  intros [q1 m1] [q2 m2]. simpl.
  destruct (negb (str_bool q1) || (len (strip q1) <? 3)%nat); [discriminate |].
  destruct (negb (str_bool q2) || (len (strip q2) <? 3)%nat); [discriminate |].
  intros H1 H2. injection H1 as <-. injection H2 as <-. simpl.
  repeat split.
  destruct (str_eqb (lower m1) (lit "beginner")); [left | right]; reflexivity.
Qed.

Lemma explain_fixed_parts_witness :
  exists r1 r2,
    post_explain {| ExplainRequest.body_query := lit "BTC dip";
                    ExplainRequest.body_mode := Some (lit "beginner") |} = Return r1
    /\ post_explain {| ExplainRequest.body_query := lit "gas fees";
                       ExplainRequest.body_mode := None |} = Return r2
    /\ ExplainResponse.key_points r1 = ExplainResponse.key_points r2.
Proof.
  eexists. eexists. split; [reflexivity |]. split; [reflexivity |].
  apply (explain_fixed_parts
           {| ExplainRequest.body_query := lit "BTC dip";
              ExplainRequest.body_mode := Some (lit "beginner") |}
           {| ExplainRequest.body_query := lit "gas fees";
              ExplainRequest.body_mode := None |} _ _ eq_refl eq_refl).
Defined.

(** * POST /api/explain within the application *)




(** * Further properties of GET /test *)

(** X6. Whatever the probe does and whatever the environment holds, a
    response the handler returns has the same six fields in the same order
    and [backend] reads [Running]: a fault never adds or drops a field. The
    handler returns one whenever the probe ends without a fault or with an
    ordinary one. *)
Theorem test_database_fields (database : database_import) (getenv : environ) :
  (ordinary_end (probe_end_of database) ->
   exists response, test_database database getenv = Return response)
  /\ forall response,
       test_database database getenv = Return response ->
       keys response
       = [ "backend"; "database"; "database_url"; "database_name";
           "connection_status"; "collections" ]%string
       /\ dict_get "backend" response
          = Some (PStr (check_mark ++ lit " Running")).
Proof.
  split; [apply test_database_returns |].
  intros response H.
  apply test_database_returned in H as [text [_ ->]].
  split; reflexivity.
Qed.

(** X7. In a response the handler returns, [connection_status] reads
    [Connected] exactly when the probe got as far as the listing call, that
    is when the import gave a handle and the attribute access did not
    raise; in every other case, a fault in [db.name] included, it stays
    [Not Connected]. *)
Theorem test_database_connection_status (database : database_import)
  (getenv : environ) :
  (ordinary_end (probe_end_of database) ->
   exists response, test_database database getenv = Return response)
  /\ forall response,
       test_database database getenv = Return response ->
       (dict_get "connection_status" response = Some (PStr (lit "Connected"))
        <-> reached_listing (probe_end_of database) = true)
       /\ (dict_get "connection_status" response
           = Some (PStr (lit "Not Connected"))
           <-> reached_listing (probe_end_of database) = false).
Proof.
  split; [apply test_database_returns |].
  intros response H.
  apply test_database_returned in H as [text [_ ->]].
  cbn [response_with dict_get String.eqb Ascii.eqb Bool.eqb].
  destruct (reached_listing (probe_end_of database));
    split; split; (reflexivity || discriminate).
Qed.

(** X8. In a response the handler returns, the [database] field reads
    [Connected & Working] exactly when the listing succeeded; collection
    names are reported only in that case, and in that case
    [connection_status] reads [Connected]. *)
Theorem test_database_working (database : database_import) (getenv : environ) :
  (ordinary_end (probe_end_of database) ->
   exists response, test_database database getenv = Return response)
  /\ forall response,
       test_database database getenv = Return response ->
       (dict_get "database" response
        = Some (PStr (check_mark ++ lit " Connected & Working"))
        <-> exists names, probe_end_of database = Listed names)
       /\ (dict_get "collections" response <> Some (PList []) ->
           dict_get "database" response
           = Some (PStr (check_mark ++ lit " Connected & Working")))
       /\ (dict_get "database" response
           = Some (PStr (check_mark ++ lit " Connected & Working")) ->
           dict_get "connection_status" response
           = Some (PStr (lit "Connected"))).
Proof.
  split; [apply test_database_returns |].
  intros response H.
  apply test_database_returned in H as [text [E ->]].
  cbn [response_with dict_get String.eqb Ascii.eqb Bool.eqb].
  assert (W : text = check_mark ++ lit " Connected & Working"
              <-> exists names, probe_end_of database = Listed names).
  { rewrite <- described_working, E.
    split; intros H; [rewrite H; reflexivity | injection H as H; exact H]. }
  split; [| split].
  - rewrite <- W. split; intros H; [injection H as H | f_equal; f_equal]; exact H.
  - intros H. f_equal. f_equal. apply W.
    destruct (probe_end_of database) as [e | | e | e | names];
      try (destruct (H eq_refl)).
    exists names. reflexivity.
  - intros H. injection H as H. apply W in H as [names Hn]. rewrite Hn.
    reflexivity.
Qed.

(** X9. In a response the handler returns, the [database] text has at
    most 75 code points, however long the text of the exception: only its
    first 50 code points are kept. *)
Theorem test_database_text_bound (database : database_import) (getenv : environ) :
  (ordinary_end (probe_end_of database) ->
   exists response, test_database database getenv = Return response)
  /\ forall response,
       test_database database getenv = Return response ->
       exists text,
         dict_get "database" response = Some (PStr text)
         /\ (len text <= 75)%nat.
Proof.
  split; [apply test_database_returns |].
  intros response H.
  apply test_database_returned in H as [text [E ->]].
  exists text. split; [reflexivity |]. apply (described_bound _ _ E).
Qed.


(** X11. The environment reaches the response through [database_url] and
    [database_name] only: with these two fields left out, the responses
    the handler returns for one end of the probe are the same in every
    environment. *)
Theorem test_database_environment_scope (database : database_import)
  (getenv getenv' : environ) :
  (ordinary_end (probe_end_of database) ->
   exists response response',
     test_database database getenv = Return response
     /\ test_database database getenv' = Return response')
  /\ forall response response',
       test_database database getenv = Return response ->
       test_database database getenv' = Return response' ->
       without "database_url" (without "database_name" response)
       = without "database_url" (without "database_name" response').
Proof.
  split.
  - intros H.
    destruct (test_database_returns database getenv H) as [r E].
    destruct (test_database_returns database getenv' H) as [r' E'].
    exists r, r'. split; assumption.
  - intros response response' H H'.
    apply test_database_returned in H as [text [E ->]].
    apply test_database_returned in H' as [text' [E' ->]].
    rewrite E in E'. injection E' as <-. reflexivity.
Qed.

(** * Further properties of the timestamps *)

Lemma digit_range (n k : N) : (48 <= digit n k <= 57)%N.
Proof.
  unfold digit.
  assert (H : ((n / 10 ^ k) mod 10 < 10)%N) by (apply N.mod_lt; discriminate).
  revert H. generalize ((n / 10 ^ k) mod 10)%N. intros x H. lia.
Qed.

Lemma timestamp_char_digit (n k : N) : timestamp_char (digit n k) = true.
Proof.
  unfold timestamp_char. destruct (digit_range n k) as [L U].
  apply N.leb_le in L, U. rewrite L, U. reflexivity.
Qed.

(** The layout of [isoformat], code point by code point. *)
Lemma isoformat_layout (t : datetime) :
  isoformat t
  = digit (year t) 3 :: digit (year t) 2 :: digit (year t) 1 :: digit (year t) 0
    :: 45%N :: digit (month t) 1 :: digit (month t) 0
    :: 45%N :: digit (day t) 1 :: digit (day t) 0
    :: 84%N :: digit (hour t) 1 :: digit (hour t) 0
    :: 58%N :: digit (minute t) 1 :: digit (minute t) 0
    :: 58%N :: digit (second t) 1 :: digit (second t) 0
    :: (if (microsecond t =? 0)%N then []
        else [ 46%N; digit (microsecond t) 5; digit (microsecond t) 4;
               digit (microsecond t) 3; digit (microsecond t) 2;
               digit (microsecond t) 1; digit (microsecond t) 0 ]).
Proof. reflexivity. Qed.

Lemma decimal_step (n k : N) :
  (n mod 10 ^ N.succ k = n mod 10 ^ k + 10 ^ k * ((n / 10 ^ k) mod 10))%N.
Proof.
  rewrite N.pow_succ_r', (N.mul_comm 10). apply N.Div0.mod_mul_r.
Qed.

(** Numbers with the same [k] low decimal digits agree modulo [10 ^ k]. *)
Lemma digits_agree_mod (n m : N) (k : nat) :
  (forall i, (i < k)%nat -> digit n (N.of_nat i) = digit m (N.of_nat i)) ->
  (n mod 10 ^ N.of_nat k = m mod 10 ^ N.of_nat k)%N.
Proof.
  induction k as [| k IH]; intros H.
  - simpl. rewrite !N.mod_1_r. reflexivity.
  - rewrite Nat2N.inj_succ, !decimal_step, IH by (intros i Hi; apply H; lia).
    pose proof (H k (Nat.lt_succ_diag_r k)) as Hk. unfold digit in Hk.
    apply N.add_cancel_l in Hk. rewrite Hk. reflexivity.
Qed.

Lemma digits2_inj (n m : N) :
  (n < 100)%N -> (m < 100)%N ->
  digit n 1 = digit m 1 -> digit n 0 = digit m 0 -> n = m.
Proof.
  intros Hn Hm H1 H0.
  rewrite <- (N.mod_small n 100), <- (N.mod_small m 100) by assumption.
  apply (digits_agree_mod n m 2).
  intros [| [| i]] Hi; simpl; (assumption || lia).
Qed.

Lemma digits4_inj (n m : N) :
  (n < 10000)%N -> (m < 10000)%N ->
  digit n 3 = digit m 3 -> digit n 2 = digit m 2 ->
  digit n 1 = digit m 1 -> digit n 0 = digit m 0 -> n = m.
Proof.
  intros Hn Hm H3 H2 H1 H0.
  rewrite <- (N.mod_small n 10000), <- (N.mod_small m 10000) by assumption.
  apply (digits_agree_mod n m 4).
  intros [| [| [| [| i]]]] Hi; simpl; (assumption || lia).
Qed.

Lemma digits6_inj (n m : N) :
  (n < 1000000)%N -> (m < 1000000)%N ->
  digit n 5 = digit m 5 -> digit n 4 = digit m 4 ->
  digit n 3 = digit m 3 -> digit n 2 = digit m 2 ->
  digit n 1 = digit m 1 -> digit n 0 = digit m 0 -> n = m.
Proof.
  intros Hn Hm H5 H4 H3 H2 H1 H0.
  rewrite <- (N.mod_small n 1000000), <- (N.mod_small m 1000000) by assumption.
  apply (digits_agree_mod n m 6).
  intros [| [| [| [| [| [| i]]]]]] Hi; simpl; (assumption || lia).
Qed.

(** [isoformat] tells apart any two instants a [datetime] can hold. *)
Lemma isoformat_inj (t1 t2 : datetime) :
  datetime_in_range t1 -> datetime_in_range t2 ->
  isoformat t1 = isoformat t2 -> t1 = t2.
Proof.
  intros R1 R2. rewrite !isoformat_layout.
  destruct t1 as [y1 mo1 d1 h1 mi1 s1 u1], t2 as [y2 mo2 d2 h2 mi2 s2 u2].
  unfold datetime_in_range in R1, R2. simpl in R1, R2 |- *.
  intros H.
  injection H as Y3 Y2 Y1 Y0 Mo1 Mo0 D1 D0 H1 H0 Mi1 Mi0 S1 S0 U.
  assert (y1 = y2) by (apply digits4_inj; (assumption || lia)).
  assert (mo1 = mo2) by (apply digits2_inj; (assumption || lia)).
  assert (d1 = d2) by (apply digits2_inj; (assumption || lia)).
  assert (h1 = h2) by (apply digits2_inj; (assumption || lia)).
  assert (mi1 = mi2) by (apply digits2_inj; (assumption || lia)).
  assert (s1 = s2) by (apply digits2_inj; (assumption || lia)).
  assert (u1 = u2).
  { destruct (N.eqb_spec u1 0) as [-> | N1], (N.eqb_spec u2 0) as [-> | N2];
      try reflexivity; try discriminate U.
    injection U as U5 U4 U3 U2 U1 U0.
    apply digits6_inj; (assumption || lia). }
  subst. reflexivity.
Qed.

(** A stamp is the ISO text followed by [Z]: 20 code points for a whole
    second, 27 otherwise, all of them digits or separators. *)
Lemma stamp_shape (t : datetime) :
  (len (isoformat t ++ lit "Z") = 20%nat \/ len (isoformat t ++ lit "Z") = 27%nat)
  /\ forallb timestamp_char (isoformat t ++ lit "Z") = true.
Proof.
  rewrite isoformat_layout. change (lit "Z") with [90%N].
  destruct (microsecond t =? 0)%N; cbn [app forallb len List.length];
    rewrite !timestamp_char_digit; (split; [auto | reflexivity]).
Qed.

(** X12. The [updatedAt] stamp of the overview and both [createdAt] stamps
    of the reports have 20 code points (whole second) or 27 (with
    microseconds), each a digit or one of [-], [.], [:], [T], [Z]. *)
Theorem timestamps_shape (w : clock) :
  (exists stamp,
      dict_get "updatedAt" (fst (market_overview w)) = Some (PStr stamp)
      /\ (len stamp = 20%nat \/ len stamp = 27%nat)
      /\ forallb timestamp_char stamp = true)
  /\ (exists first second stamp1 stamp2,
         fst (list_reports w) = [ ("items"%string, PList [first; second]) ]
         /\ item "createdAt" first = Some (PStr stamp1)
         /\ item "createdAt" second = Some (PStr stamp2)
         /\ (len stamp1 = 20%nat \/ len stamp1 = 27%nat)
         /\ (len stamp2 = 20%nat \/ len stamp2 = 27%nat)
         /\ forallb timestamp_char stamp1 = true
         /\ forallb timestamp_char stamp2 = true).
Proof.
  split.
  - eexists. split; [reflexivity |]. apply stamp_shape.
  - do 4 eexists. split; [reflexivity |]. split; [reflexivity |].
    split; [reflexivity |].
    pose proof (stamp_shape (reading w (reads w))) as [L1 C1].
    pose proof (stamp_shape (reading w (S (reads w)))) as [L2 C2].
    auto.
Qed.

(** X13. The overview tells the time exactly: two overview payloads are
    equal if and only if they were produced at the same clock reading. *)
Theorem market_overview_tells_time (w1 w2 : clock) :
  datetime_in_range (reading w1 (reads w1)) ->
  datetime_in_range (reading w2 (reads w2)) ->
  fst (market_overview w1) = fst (market_overview w2)
  <-> reading w1 (reads w1) = reading w2 (reads w2).
Proof.
  intros R1 R2. unfold market_overview, utcnow. cbn [fst]. split.
  - remember (isoformat (reading w1 (reads w1)) ++ lit "Z") as s1 eqn:E1.
    remember (isoformat (reading w2 (reads w2)) ++ lit "Z") as s2 eqn:E2.
    intros H. injection H as H. subst s1 s2. apply app_inv_tail in H.
    apply isoformat_inj; assumption.
  - intros ->. reflexivity.
Qed.

Lemma market_overview_tells_time_witness :
  fst (market_overview sample_clock)
  = fst (market_overview {| reading := reading sample_clock; reads := 7 |}).
Proof.
  apply (market_overview_tells_time sample_clock
           {| reading := reading sample_clock; reads := 7 |}).
  - unfold datetime_in_range. simpl. lia.
  - unfold datetime_in_range. simpl. lia.
  - reflexivity.
Defined.

(** X14. Two reports payloads are equal if and only if both clock readings
    behind them agree: the first [createdAt] with the first, the second
    with the second. *)
Theorem list_reports_tells_time (w1 w2 : clock) :
  datetime_in_range (reading w1 (reads w1)) ->
  datetime_in_range (reading w1 (S (reads w1))) ->
  datetime_in_range (reading w2 (reads w2)) ->
  datetime_in_range (reading w2 (S (reads w2))) ->
  fst (list_reports w1) = fst (list_reports w2)
  <-> reading w1 (reads w1) = reading w2 (reads w2)
      /\ reading w1 (S (reads w1)) = reading w2 (S (reads w2)).
Proof.
  intros A1 B1 A2 B2. unfold list_reports, utcnow. cbn [fst reading reads]. split.
  - remember (isoformat (reading w1 (reads w1)) ++ lit "Z") as a1 eqn:Ea1.
    remember (isoformat (reading w1 (S (reads w1))) ++ lit "Z") as b1 eqn:Eb1.
    remember (isoformat (reading w2 (reads w2)) ++ lit "Z") as a2 eqn:Ea2.
    remember (isoformat (reading w2 (S (reads w2))) ++ lit "Z") as b2 eqn:Eb2.
    intros H. injection H as Ha Hb. subst a1 b1 a2 b2.
    apply app_inv_tail in Ha, Hb.
    split; apply isoformat_inj; assumption.
  - intros [-> ->]. reflexivity.
Qed.

Lemma list_reports_tells_time_witness :
  fst (list_reports sample_clock)
  = fst (list_reports {| reading := reading sample_clock; reads := 3 |}).
Proof.
  apply (list_reports_tells_time sample_clock
           {| reading := reading sample_clock; reads := 3 |});
    try (unfold datetime_in_range; simpl; lia).
  split; reflexivity.
Defined.
